(** * prgpt: the pull-request review command line tool (src/main.go)

    A shallow embedding of [main], [getPRDiff], [generateFinalConsideration]
    and [loadConfig].  Go strings are byte sequences, modelled by [string]
    (a list of 8-bit [ascii]).  The calls that leave main.go (the user
    database, the file system, the [gh] subprocess, the HTTPS round trip,
    standard output, and two library functions whose result is all the
    program looks at) are the constructors of [Eff]; a Go function that
    performs them is a tree of type [Prog], run against a [World] that
    answers every call.  [json.Marshal] is followed byte by byte for the
    request type, since the serialized body is what the service receives;
    [Inspect] is the JSON reader that body is checked with. *)

From Stdlib Require Import List String Ascii Bool Arith NArith ZArith Lia.
From Stdlib Require QArith DecimalString.
Import ListNotations.

Local Open Scope string_scope.
Local Open Scope list_scope.

Set Implicit Arguments.

(** ** Constants (main.go, lines 18-23) *)

Definition openAICompletionURL : string := "https://api.openai.com/v1/chat/completions".
Definition openAIModel : string := "gpt-3.5-turbo-1106".
Definition CONFIG_FOLDER : string := "/.config/openai/".
Definition FILENAME : string := "config.toml".

(** ** Go strings *)

Module strings.

(** [HasPrefix s prefix], on byte strings. *)
Fixpoint HasPrefix (s prefix : string) : bool :=
  match prefix, s with
  | EmptyString, _ => true
  | String _ _, EmptyString => false
  | String p prefix', String c s' => Ascii.eqb c p && HasPrefix s' prefix'
  end.

(** The scan of [strings.Split] for a separator [sep] that is not empty:
    [skip] counts the bytes of an occurrence of [sep] still to be dropped and
    [cur] is the segment read so far.  Occurrences are found left to right and
    do not overlap; the text after the last one is the last segment. *)
Fixpoint split_from (sep s : string) (skip : nat) (cur : string) : list string :=
  match s with
  | EmptyString => [cur]
  | String c s' =>
      match skip with
      | S k => split_from sep s' k cur
      | O =>
          if HasPrefix s sep
          then cur :: split_from sep s' (String.length sep - 1) EmptyString
          else split_from sep s' O (cur ++ String c EmptyString)
      end
  end.

(** [strings.Split(s, sep)] for [sep <> ""], the only use in main.go.  The
    result always has at least one element: [Split "" "/"] is [[""]]. *)
Definition Split (s sep : string) : list string := split_from sep s O EmptyString.

End strings.

(** ** Errors

    A Go [error] built by main.go is one of the eleven [fmt.Errorf] calls of
    the file; [cause] is the text of the library error that [%v] formats
    into the message. *)

Inductive error : Type :=
| ErrInvalidPRURL                        (* line 95 *)
| ErrRunningGh (cause : string)          (* line 105 *)
| ErrMarshal (cause : string)            (* line 126 *)
| ErrCreatingRequest (cause : string)    (* line 131 *)
| ErrMakingRequest (cause : string)      (* line 139 *)
| ErrReadingResponse (cause : string)    (* line 145 *)
| ErrUnmarshal (cause : string)          (* line 150 *)
| ErrNoResponse                          (* line 154 *)
| ErrCurrentUser                         (* line 163 *)
| ErrOpeningToml (cause : string)        (* line 168 *)
| ErrParsingToml (cause : string).       (* line 174 *)

(** [err.Error()]: the message each [fmt.Errorf] call formats. *)
Definition Error (e : error) : string :=
  match e with
  | ErrInvalidPRURL => "invalid PR URL"
  | ErrRunningGh c => "error running gh pr diff: " ++ c
  | ErrMarshal c => "error marshaling OpenAI request: " ++ c
  | ErrCreatingRequest c => "error creating request to OpenAI API: " ++ c
  | ErrMakingRequest c => "error making request to OpenAI API: " ++ c
  | ErrReadingResponse c => "error reading response from OpenAI API: " ++ c
  | ErrUnmarshal c => "error unmarshaling OpenAI response: " ++ c
  | ErrNoResponse => "no response received from OpenAI API"
  | ErrCurrentUser => "Error getting current user"
  | ErrOpeningToml c => "Error opening TOML file: " ++ c
  | ErrParsingToml c => "Error parsing TOML file: " ++ c
  end.

(** The library error an [error] wraps, when it wraps one. *)
Definition cause_of (e : error) : option string :=
  match e with
  | ErrInvalidPRURL | ErrNoResponse | ErrCurrentUser => None
  | ErrRunningGh c | ErrMarshal c | ErrCreatingRequest c | ErrMakingRequest c
  | ErrReadingResponse c | ErrUnmarshal c | ErrOpeningToml c | ErrParsingToml c => Some c
  end.

(** The kinds of failure the specification names, and the kind of each
    error of the source. *)
Inductive ErrorKind : Type :=
| ConfigError | InvalidURLError | DiffFetchError | SerializationError
| RequestError | ResponseReadError | DeserializationError | EmptyResponseError.

Definition kind_of (e : error) : ErrorKind :=
  match e with
  | ErrInvalidPRURL => InvalidURLError
  | ErrRunningGh _ => DiffFetchError
  | ErrMarshal _ => SerializationError
  | ErrCreatingRequest _ | ErrMakingRequest _ => RequestError
  | ErrReadingResponse _ => ResponseReadError
  | ErrUnmarshal _ => DeserializationError
  | ErrNoResponse => EmptyResponseError
  | ErrCurrentUser | ErrOpeningToml _ | ErrParsingToml _ => ConfigError
  end.

(** The words [main] prints before an error of each kind; a configuration
    error has none, since it is never printed. *)
Definition context_of (k : ErrorKind) : option string :=
  match k with
  | ConfigError => None
  | InvalidURLError | DiffFetchError => Some "Error fetching PR diff:"
  | SerializationError | RequestError | ResponseReadError
  | DeserializationError | EmptyResponseError => Some "Error generating final consideration:"
  end.

(** A Go result pair [(T, error)] of which the caller reads the value only
    when the error is nil.  [E] is [error] for the functions of main.go and
    [string] (the text of the error) for library calls. *)
Inductive result (E A : Type) : Type :=
| Ok (a : A)
| Err (e : E).

Arguments Ok {E A} a.
Arguments Err {E A} e.

(** ** Data (main.go, lines 25-63) *)

(** The only [float64] of the program is the constant 0.5; a float that is
    finite is a dyadic rational [mant * 2 ^ expo]. *)
Record float64 : Type := mkFloat64 { mant : Z; expo : Z }.

Definition float64_value (f : float64) : QArith_base.Q :=
  if (0 <=? expo f)%Z
  then QArith_base.Qmake (mant f * 2 ^ expo f) 1
  else QArith_base.Qmake (mant f) (Z.to_pos (2 ^ (- expo f))).

(** The Go constant [0.5]. *)
Definition half : float64 := mkFloat64 1 (-1).

Module OpenAIRequestMessages.
Record t : Type := mk { Role : string; Content : string }.
End OpenAIRequestMessages.

Module OpenAIRequest.
Record t : Type := mk {
    Model : string;
    Messages : list OpenAIRequestMessages.t;
    Temperature : float64 }.
End OpenAIRequest.

Module OpenAIReponse.
Record usage : Type := mkUsage {
    PromptTokens : Z; CompletionTokens : Z; TotalTokens : Z }.
Record message : Type := mkMessage { Role : string; Content : string }.
Record choice : Type := mkChoice {
    Message : message; FinishReason : string; Index : Z }.
Record t : Type := mk {
    ID : string; Object : string; Created : Z; Model : string;
    Usage : usage; Choices : list choice }.
End OpenAIReponse.

Module FileConfig.
Record apikey : Type := mkApiKey { Key : string }.
Record prompt : Type := mkPrompt { Custom : string }.
Record t : Type := mk { ApiKey : apikey; Prompt : prompt }.
(** The zero value of the struct, which a named result starts from. *)
Definition zero : t := mk (mkApiKey "") (mkPrompt "").
End FileConfig.

(** [user.User], of which only [HomeDir] is read. *)
Record User : Type := mkUser { HomeDir : string }.

(** An open [*os.File], named by the path it was opened at. *)
Definition File : Type := string.

(** [http.Request] as [http.NewRequest] builds it and [Header.Set] fills it,
    and [http.Response], of which only the body stream is read. *)
Record Request : Type := mkRequest {
  Method : string; URL : string; Header : list (string * string); Body : string }.

Definition ReadCloser : Type := nat.
Record Response : Type := mkResponse { RespBody : ReadCloser }.

(** [req.Header.Set(key, value)] for a key in canonical form, as both keys of
    main.go are: the entries of the key are replaced by the one value. *)
Definition Header_Set (req : Request) (key value : string) : Request :=
  mkRequest (Method req) (URL req)
    (filter (fun kv => negb (String.eqb (fst kv) key)) (Header req) ++ [(key, value)])
    (Body req).

(** ** Bytes and UTF-8 (Go's unicode/utf8, as encoding/json uses it) *)

Definition byte_of (c : ascii) : N := N_of_ascii c.

(** The characters that cannot be written inside a string literal here. *)
Definition dquote : ascii := ascii_of_N 34.
Definition backslash : ascii := ascii_of_N 92.
Definition newline : ascii := ascii_of_N 10.

Module utf8.

Local Open Scope N_scope.

Definition RuneError : N := 0xFFFD.
Definition RuneSelf : N := 0x80.
Definition UTFMax : nat := 4.

(** The table [first] of utf8.go: what the first byte of a sequence says.
    [as_] is ASCII, [xx] an invalid first byte; otherwise the low three bits
    are the length of the sequence and the high four bits index
    [acceptRanges], the bounds of the second byte. *)
Definition xx : N := 0xF1.
Definition as_ : N := 0xF0.
Definition s1 : N := 0x02.
Definition s2 : N := 0x13.
Definition s3 : N := 0x03.
Definition s4 : N := 0x23.
Definition s5 : N := 0x34.
Definition s6 : N := 0x04.
Definition s7 : N := 0x44.

Definition first (b : N) : N :=
  if b <? 0x80 then as_
  else if b <? 0xC2 then xx
  else if b <? 0xE0 then s1
  else if b =? 0xE0 then s2
  else if b <? 0xED then s3
  else if b =? 0xED then s4
  else if b <? 0xF0 then s3
  else if b =? 0xF0 then s5
  else if b <? 0xF4 then s6
  else if b =? 0xF4 then s7
  else xx.

Definition locb : N := 0x80.
Definition hicb : N := 0xBF.

Definition acceptRanges (i : N) : N * N :=
  match i with
  | 0 => (locb, hicb)
  | 1 => (0xA0, hicb)
  | 2 => (locb, 0x9F)
  | 3 => (0x90, hicb)
  | 4 => (locb, 0x8F)
  | _ => (0, 0)
  end.

Definition maskx : N := 0x3F.
Definition mask2 : N := 0x1F.
Definition mask3 : N := 0x0F.
Definition mask4 : N := 0x07.

(** [utf8.DecodeRuneInString]: the first rune of [s] and its width in bytes;
    [(RuneError, 1)] is an invalid sequence, [(RuneError, 0)] the empty
    string. *)
Definition DecodeRuneInString (s : string) : N * nat :=
  match s with
  | EmptyString => (RuneError, 0%nat)
  | String c0 t0 =>
      let b0 := byte_of c0 in
      let x := first b0 in
      if as_ <=? x then ((if x =? as_ then b0 else RuneError), 1%nat)
      else
        let sz := N.to_nat (N.land x 7) in
        let accept := acceptRanges (N.shiftr x 4) in
        if (String.length s <? sz)%nat then (RuneError, 1%nat)
        else
          match t0 with
          | EmptyString => (RuneError, 1%nat)
          | String c1 t1 =>
              let b1 := byte_of c1 in
              if (b1 <? fst accept) || (snd accept <? b1) then (RuneError, 1%nat)
              else if (sz <=? 2)%nat
              then (N.lor (N.shiftl (N.land b0 mask2) 6) (N.land b1 maskx), 2%nat)
              else
                match t1 with
                | EmptyString => (RuneError, 1%nat)
                | String c2 t2 =>
                    let b2 := byte_of c2 in
                    if (b2 <? locb) || (hicb <? b2) then (RuneError, 1%nat)
                    else if (sz <=? 3)%nat
                    then (N.lor (N.lor (N.shiftl (N.land b0 mask3) 12)
                                       (N.shiftl (N.land b1 maskx) 6))
                                (N.land b2 maskx), 3%nat)
                    else
                      match t2 with
                      | EmptyString => (RuneError, 1%nat)
                      | String c3 _ =>
                          let b3 := byte_of c3 in
                          if (b3 <? locb) || (hicb <? b3) then (RuneError, 1%nat)
                          else (N.lor (N.lor (N.lor (N.shiftl (N.land b0 mask4) 18)
                                                    (N.shiftl (N.land b1 maskx) 12))
                                             (N.shiftl (N.land b2 maskx) 6))
                                      (N.land b3 maskx), 4%nat)
                      end
                end
          end
  end.

(** No byte of [s] is ASCII. *)
Fixpoint above_ascii (s : string) : bool :=
  match s with
  | EmptyString => true
  | String c s' => (RuneSelf <=? byte_of c) && above_ascii s'
  end.

(** [utf8.ValidString]: every byte of [s] belongs to a sequence that
    [DecodeRuneInString] accepts.  [pending] counts the bytes of the current
    sequence still to be passed over. *)
Fixpoint valid_from (s : string) (pending : nat) : bool :=
  match s with
  | EmptyString => true
  | String c s' =>
      match pending with
      | S k => valid_from s' k
      | O =>
          if byte_of c <? RuneSelf then valid_from s' O
          else
            let (r, size) := DecodeRuneInString (substring 0 UTFMax s) in
            if (r =? RuneError) && (size =? 1)%nat then false
            else valid_from s' (size - 1)
      end
  end.

Definition ValidString (s : string) : bool := valid_from s O.

End utf8.

(** ** JSON encoding (Go's encoding/json, for the request of main.go)

    [json.Marshal] walks the value by reflection; here is what it writes
    for the three types the request is made of.  A struct is an object whose
    members are the fields in their order of declaration under the names of
    their [json] tags, a slice is an array, a string is [appendString] with
    HTML escaping on, a float is its shortest decimal form. *)

Module json.

Local Open Scope N_scope.

Definition hex (n : N) : ascii :=
  match String.get (N.to_nat n) "0123456789abcdef" with
  | Some c => c
  | None => "0"%char
  end.

(** [htmlSafeSet] of tables.go: the ASCII bytes written as they are. *)
Definition htmlSafeSet (b : N) : bool :=
  (0x20 <=? b) && (b <? 0x80)
  && negb ((b =? 0x22) || (b =? 0x26) || (b =? 0x3C) || (b =? 0x3E) || (b =? 0x5C)).

(** What [appendString] writes for one byte below [utf8.RuneSelf] (Go 1.22
    and later; earlier releases write backspace and form feed as [\u0008]
    and [\u000c], which read back as the same bytes). *)
Definition escape_ascii (c : ascii) : string :=
  let b := byte_of c in
  if htmlSafeSet b then String c EmptyString
  else if (b =? 0x5C) || (b =? 0x22) then String backslash (String c EmptyString)
  else if b =? 0x08 then String backslash "b"
  else if b =? 0x0C then String backslash "f"
  else if b =? 0x0A then String backslash "n"
  else if b =? 0x0D then String backslash "r"
  else if b =? 0x09 then String backslash "t"
  else String backslash
         (String "u" (String "0" (String "0"
           (String (hex (N.shiftr b 4)) (String (hex (N.land b 0xF)) EmptyString))))).

(** The loop of [appendString] without the surrounding quotes.  [pending]
    counts the bytes of the current multi-byte rune still to be passed over,
    which are copied when [keep] and dropped otherwise (the rune was
    written as an escape).  A byte that starts no valid UTF-8 sequence is
    written as the escape of U+FFFD; U+2028 and U+2029 are always escaped. *)
Fixpoint appendString_from (s : string) (pending : nat) (keep : bool) : string :=
  match s with
  | EmptyString => EmptyString
  | String c s' =>
      match pending with
      | S k =>
          if keep then String c (appendString_from s' k keep)
          else appendString_from s' k keep
      | O =>
          if byte_of c <? utf8.RuneSelf
          then (escape_ascii c ++ appendString_from s' O true)%string
          else
            let (r, size) := utf8.DecodeRuneInString (substring 0 utf8.UTFMax s) in
            if (r =? utf8.RuneError) && (size =? 1)%nat
            then (String backslash "ufffd" ++ appendString_from s' O true)%string
            else if (r =? 0x2028) || (r =? 0x2029)
            then (String backslash "u202" ++ String (hex (N.land r 0xF)) EmptyString
                  ++ appendString_from s' (size - 1) false)%string
            else String c (appendString_from s' (size - 1) true)
      end
  end.

Definition appendString (s : string) : string :=
  String dquote (appendString_from s O true ++ String dquote EmptyString).

(** Decimal digits of a natural number. *)
Definition digits (n : N) : string :=
  DecimalString.NilZero.string_of_uint (N.to_uint n).

Fixpoint zeros (k : nat) : string :=
  match k with
  | O => EmptyString
  | S k' => String "0" (zeros k')
  end.

Fixpoint strip_zeros (s : string) : string :=
  match s with
  | EmptyString => EmptyString
  | String c t =>
      match strip_zeros t with
      | EmptyString => if Ascii.eqb c "0" then EmptyString else String c EmptyString
      | t' => String c t'
      end
  end.

(** [strconv.AppendFloat(b, f, 'f', -1, 64)], the form the float encoder
    chooses for [1e-6 <= |f| < 1e21], written as the exact decimal expansion
    of the dyadic: it is the shortest decimal that reads back as [f] whenever
    it has at most fifteen significant digits, as for the constant 0.5. *)
Definition FormatFloat (f : float64) : string :=
  let sign := if (mant f <? 0)%Z then "-"%string else EmptyString in
  let a := Z.to_N (Z.abs (mant f)) in
  if (0 <=? expo f)%Z then (sign ++ digits (a * 2 ^ Z.to_N (expo f)))%string
  else
    let k := Z.to_N (- expo f) in
    let n := a * 5 ^ k in
    let p := 10 ^ k in
    let frac := digits (n mod p) in
    let frac := strip_zeros (zeros (N.to_nat k - String.length frac) ++ frac) in
    (sign ++ digits (n / p)
       ++ match frac with EmptyString => EmptyString | _ => String "." frac end)%string.

(** An object member [name: value]; the names are the [json] struct tags. *)
Definition member (name value : string) : string :=
  (appendString name ++ String ":" value)%string.

Definition encode_OpenAIRequestMessages (m : OpenAIRequestMessages.t) : string :=
  ("{" ++ member "role" (appendString (OpenAIRequestMessages.Role m))
   ++ "," ++ member "content" (appendString (OpenAIRequestMessages.Content m))
   ++ "}")%string.

(** A slice: [null] when nil (here: the empty list), otherwise an array. *)
Definition encode_Messages (l : list OpenAIRequestMessages.t) : string :=
  match l with
  | [] => "null"%string
  | _ => ("[" ++ String.concat "," (map encode_OpenAIRequestMessages l) ++ "]")%string
  end.

Definition encode_OpenAIRequest (r : OpenAIRequest.t) : string :=
  ("{" ++ member "model" (appendString (OpenAIRequest.Model r))
   ++ "," ++ member "messages" (encode_Messages (OpenAIRequest.Messages r))
   ++ "," ++ member "temperature" (FormatFloat (OpenAIRequest.Temperature r))
   ++ "}")%string.

(** [json.Marshal] on an [OpenAIRequest].  It fails on a float that is NaN
    or infinite only, which [float64] here has not. *)
Definition Marshal (r : OpenAIRequest.t) : result string string :=
  Ok (encode_OpenAIRequest r).

End json.

(** ** Reading JSON back

    The specification states its round-trip property by inspecting the
    serialized body.  [Inspect] is the reader used for that: a JSON parser
    after RFC 8259 that yields the document as a tree.  It is no part of
    main.go. *)

Module Inspect.

Local Open Scope N_scope.

(** A JSON number, [(-1)^negative * digits * 10^exponent]. *)
Record number : Type := mkNumber { negative : bool; mantissa : N; exponent : Z }.

#[local] Set Warnings "-register-all".

Inductive value : Type :=
| JNull
| JBool (b : bool)
| JNumber (n : number)
| JString (s : string)
| JArray (elements : list value)
| JObject (members : list (string * value)).

Definition number_value (n : number) : QArith_base.Q :=
  let m := if negative n then (- Z.of_N (mantissa n))%Z else Z.of_N (mantissa n) in
  if (0 <=? exponent n)%Z
  then QArith_base.Qmake (m * 10 ^ exponent n) 1
  else QArith_base.Qmake m (Z.to_pos (10 ^ (- exponent n))).

Definition is_ws (c : ascii) : bool :=
  let b := byte_of c in (b =? 0x20) || (b =? 0x09) || (b =? 0x0A) || (b =? 0x0D).

Fixpoint skip_ws (s : string) : string :=
  match s with
  | String c s' => if is_ws c then skip_ws s' else s
  | EmptyString => s
  end.

Definition hexval (c : ascii) : option N :=
  let b := byte_of c in
  if (0x30 <=? b) && (b <=? 0x39) then Some (b - 0x30)
  else if (0x61 <=? b) && (b <=? 0x66) then Some (b - 0x61 + 10)
  else if (0x41 <=? b) && (b <=? 0x46) then Some (b - 0x41 + 10)
  else None.

Definition hex4 (h1 h2 h3 h4 : ascii) : option N :=
  match hexval h1, hexval h2, hexval h3, hexval h4 with
  | Some a, Some b, Some c, Some d => Some (((a * 16 + b) * 16 + c) * 16 + d)
  | _, _, _, _ => None
  end.

Definition byte (n : N) : ascii := ascii_of_N n.

(** The UTF-8 encoding of a code point. *)
Definition encode_rune (cp : N) : string :=
  if cp <? 0x80 then String (byte cp) EmptyString
  else if cp <? 0x800 then
    String (byte (0xC0 + cp / 64)) (String (byte (0x80 + cp mod 64)) EmptyString)
  else if cp <? 0x10000 then
    String (byte (0xE0 + cp / 4096))
      (String (byte (0x80 + (cp / 64) mod 64))
         (String (byte (0x80 + cp mod 64)) EmptyString))
  else
    String (byte (0xF0 + cp / 262144))
      (String (byte (0x80 + (cp / 4096) mod 64))
         (String (byte (0x80 + (cp / 64) mod 64))
            (String (byte (0x80 + cp mod 64)) EmptyString))).

Definition replacement : string := encode_rune 0xFFFD.

Definition prepend (p : string) (r : option (string * string)) : option (string * string) :=
  match r with
  | Some (x, rest) => Some ((p ++ x)%string, rest)
  | None => None
  end.

(** The single-character escapes. *)
Definition simple_escape (e : ascii) : option ascii :=
  let b := byte_of e in
  if (b =? 0x22) || (b =? 0x5C) || (b =? 0x2F) then Some e
  else if b =? 0x62 then Some (byte 0x08)
  else if b =? 0x66 then Some (byte 0x0C)
  else if b =? 0x6E then Some (byte 0x0A)
  else if b =? 0x72 then Some (byte 0x0D)
  else if b =? 0x74 then Some (byte 0x09)
  else None.

(** The text of a string literal after its opening quote: the string it
    denotes and what follows the closing quote.  An escape [\uXXXX] denotes
    the UTF-8 encoding of its code point, a surrogate pair the code point
    it encodes, a lone surrogate U+FFFD; a control character may not stand
    unescaped. *)
Fixpoint string_body (s : string) : option (string * string) :=
  match s with
  | EmptyString => None
  | String c s1 =>
      if Ascii.eqb c dquote then Some (EmptyString, s1)
      else if Ascii.eqb c backslash then
        match s1 with
        | EmptyString => None
        | String e s2 =>
            if Ascii.eqb e "u" then
              match s2 with
              | String h1 (String h2 (String h3 (String h4 s3))) =>
                  match hex4 h1 h2 h3 h4 with
                  | None => None
                  | Some cp =>
                      if (0xD800 <=? cp) && (cp <? 0xDC00) then
                        match s3 with
                        | String b (String u (String l1 (String l2 (String l3 (String l4 s4))))) =>
                            if Ascii.eqb b backslash && Ascii.eqb u "u" then
                              match hex4 l1 l2 l3 l4 with
                              | None => None
                              | Some lo =>
                                  if (0xDC00 <=? lo) && (lo <? 0xE000)
                                  then prepend
                                         (encode_rune
                                            (0x10000 + (cp - 0xD800) * 1024 + (lo - 0xDC00)))
                                         (string_body s4)
                                  else prepend replacement (string_body s3)
                              end
                            else prepend replacement (string_body s3)
                        | _ => prepend replacement (string_body s3)
                        end
                      else if (0xDC00 <=? cp) && (cp <? 0xE000)
                      then prepend replacement (string_body s3)
                      else prepend (encode_rune cp) (string_body s3)
                  end
              | _ => None
              end
            else
              match simple_escape e with
              | Some x => prepend (String x EmptyString) (string_body s2)
              | None => None
              end
        end
      else if byte_of c <? 0x20 then None
      else prepend (String c EmptyString) (string_body s1)
  end.

Definition is_digit (c : ascii) : bool := (0x30 <=? byte_of c) && (byte_of c <=? 0x39).

(** The digits at the head of [s], read after [acc]: the number read, how
    many digits there were, and the rest. *)
Fixpoint take_digits (s : string) (acc : N) (count : nat) : N * nat * string :=
  match s with
  | String c s' =>
      if is_digit c then take_digits s' (acc * 10 + (byte_of c - 0x30)) (S count)
      else (acc, count, s)
  | EmptyString => (acc, count, s)
  end.

(** The fraction and the exponent that may follow the integer part. *)
Definition number_tail (neg : bool) (int : N) (s : string) : option (number * string) :=
  let after_frac :=
    match s with
    | String "." s1 =>
        match take_digits s1 int O with
        | (_, O, _) => None
        | (m, k, s2) => Some (m, (- Z.of_nat k)%Z, s2)
        end
    | _ => Some (int, 0%Z, s)
    end in
  match after_frac with
  | None => None
  | Some (m, e, s2) =>
      let exp_of (sign : Z) (s3 : string) :=
        match take_digits s3 0 O with
        | (_, O, _) => None
        | (x, _, s4) => Some (mkNumber neg m (e + sign * Z.of_N x), s4)
        end in
      match s2 with
      | String c s3 =>
          if Ascii.eqb c "e" || Ascii.eqb c "E" then
            match s3 with
            | String "+" s4 => exp_of 1%Z s4
            | String "-" s4 => exp_of (-1)%Z s4
            | _ => exp_of 1%Z s3
            end
          else Some (mkNumber neg m e, s2)
      | EmptyString => Some (mkNumber neg m e, s2)
      end
  end.

(** A number: the integer part is [0] or starts with a digit that is not
    [0]. *)
Definition parse_number (s : string) : option (number * string) :=
  let (neg, s1) := match s with
                   | String "-" s' => (true, s')
                   | _ => (false, s)
                   end in
  match s1 with
  | String "0" s2 => number_tail neg 0 s2
  | _ =>
      match take_digits s1 0 O with
      | (_, O, _) => None
      | (int, _, s2) => number_tail neg int s2
      end
  end.

Definition literal (word : string) (v : value) (s : string) : option (value * string) :=
  if strings.HasPrefix s word
  then Some (v, substring (String.length word) (String.length s - String.length word) s)
  else None.

(** A value at the head of [s], and what follows it.  [fuel] bounds the
    number of values, elements and members entered; the length of the text
    is always enough. *)
Fixpoint parse_value (fuel : nat) (s : string) {struct fuel} : option (value * string) :=
  match fuel with
  | O => None
  | S fuel' =>
      match skip_ws s with
      | EmptyString => None
      | String c s' =>
          if Ascii.eqb c "{" then
            match skip_ws s' with
            | String "}" s'' => Some (JObject [], s'')
            | _ =>
                match parse_members fuel' s' with
                | Some (ms, rest) => Some (JObject ms, rest)
                | None => None
                end
            end
          else if Ascii.eqb c "[" then
            match skip_ws s' with
            | String "]" s'' => Some (JArray [], s'')
            | _ =>
                match parse_elements fuel' s' with
                | Some (vs, rest) => Some (JArray vs, rest)
                | None => None
                end
            end
          else if Ascii.eqb c dquote then
            match string_body s' with
            | Some (x, rest) => Some (JString x, rest)
            | None => None
            end
          else if Ascii.eqb c "t" then literal "true" (JBool true) (String c s')
          else if Ascii.eqb c "f" then literal "false" (JBool false) (String c s')
          else if Ascii.eqb c "n" then literal "null" JNull (String c s')
          else
            match parse_number (String c s') with
            | Some (n, rest) => Some (JNumber n, rest)
            | None => None
            end
      end
  end

with parse_elements (fuel : nat) (s : string) {struct fuel}
  : option (list value * string) :=
  match fuel with
  | O => None
  | S fuel' =>
      match parse_value fuel' s with
      | None => None
      | Some (v, rest) =>
          match skip_ws rest with
          | String "," rest' =>
              match parse_elements fuel' rest' with
              | Some (vs, rest'') => Some (v :: vs, rest'')
              | None => None
              end
          | String "]" rest' => Some ([v], rest')
          | _ => None
          end
      end
  end

with parse_members (fuel : nat) (s : string) {struct fuel}
  : option (list (string * value) * string) :=
  match fuel with
  | O => None
  | S fuel' =>
      match skip_ws s with
      | String c s1 =>
          if Ascii.eqb c dquote then
            match string_body s1 with
            | None => None
            | Some (name, s2) =>
                match skip_ws s2 with
                | String ":" s3 =>
                    match parse_value fuel' s3 with
                    | None => None
                    | Some (v, rest) =>
                        match skip_ws rest with
                        | String "," rest' =>
                            match parse_members fuel' rest' with
                            | Some (ms, rest'') => Some ((name, v) :: ms, rest'')
                            | None => None
                            end
                        | String "}" rest' => Some ([(name, v)], rest')
                        | _ => None
                        end
                    end
                | _ => None
                end
            end
          else None
      | EmptyString => None
      end
  end.

(** The document a text denotes, when it is one JSON value and nothing
    else. *)
Definition document (text : string) : option value :=
  match parse_value (S (String.length text)) text with
  | Some (v, rest) =>
      match skip_ws rest with
      | EmptyString => Some v
      | _ => None
      end
  | None => None
  end.

(** Member [name] of an object and element [i] of an array. *)
Fixpoint assoc (name : string) (ms : list (string * value)) : option value :=
  match ms with
  | [] => None
  | (k, v) :: ms' => if String.eqb k name then Some v else assoc name ms'
  end.

Definition member (name : string) (v : value) : option value :=
  match v with
  | JObject ms => assoc name ms
  | _ => None
  end.

Definition element (i : nat) (v : value) : option value :=
  match v with
  | JArray vs => nth_error vs i
  | _ => None
  end.

End Inspect.

(** ** Calls and programs

    [Eff X] is a call that main.go makes to code outside it and that answers
    with an [X].  A library call that may fail answers with a [result] whose
    error is the text of the library's error, or, where the Go call fills a
    value and returns an error beside it, with the pair of both. *)

Inductive Eff : Type -> Type :=
| UserCurrent : Eff (result string User)
    (* user.Current() *)
| OsOpen (name : string) : Eff (result string File)
    (* os.Open(name) *)
| TomlDecode (file : File) (into : FileConfig.t) : Eff (FileConfig.t * option string)
    (* toml.NewDecoder(file).Decode(&into): the struct as the decoder leaves it *)
| FileClose (file : File) : Eff unit
    (* file.Close() *)
| Println (operands : list string) : Eff unit
    (* fmt.Println(operands...) on standard output *)
| CmdOutput (argv : list string) : Eff (string * option string)
    (* exec.Command(argv[0], argv[1:]...).Output() *)
| HttpNewRequest (method url body : string) : Eff (option string)
    (* the error of http.NewRequest(method, url, body), nil for a valid
       method and a URL that parses *)
| ClientDo (req : Request) : Eff (result string Response)
    (* (&http.Client{}).Do(req) *)
| ReadAll (body : ReadCloser) : Eff (string * option string)
    (* io.ReadAll(body) *)
| BodyClose (body : ReadCloser) : Eff unit
    (* body.Close() *)
| JsonUnmarshal (data : string) : Eff (result string OpenAIReponse.t).
    (* json.Unmarshal(data, &v) into a zero OpenAIReponse *)

(** A Go function body: it returns, panics, or makes a call and goes on
    with the answer. *)
Inductive Prog (A : Type) : Type :=
| Ret (a : A)
| Panic (msg : string)
| Vis (X : Type) (e : Eff X) (k : X -> Prog A).

Arguments Ret {A} a.
Arguments Panic {A} msg.
Arguments Vis {A X} e k.

Fixpoint bind {A B : Type} (p : Prog A) (f : A -> Prog B) : Prog B :=
  match p with
  | Ret a => f a
  | Panic msg => Panic msg
  | Vis e k => Vis e (fun x => bind (k x) f)
  end.

Definition call {X : Type} (e : Eff X) : Prog X := Vis e (fun x => Ret x).

Declare Scope prog_scope.
Delimit Scope prog_scope with prog.
Notation "x <- p ;; q" := (bind p (fun x => q))
  (at level 100, p at next level, right associativity) : prog_scope.
Notation "p ;; q" := (bind p (fun _ => q))
  (at level 100, right associativity) : prog_scope.
Local Open Scope prog_scope.

(** [a[i]] on a slice: a run-time panic when [i] is out of range. *)
Definition index {A : Type} (a : list A) (i : nat) : Prog A :=
  match nth_error a i with
  | Some x => Ret x
  | None => Panic "index out of range"
  end.

(** ** The functions of main.go *)

(** Lines 92-109. *)
Definition getPRDiff (prURL : string) : Prog (result error string) :=
  let parts := strings.Split prURL "/" in
  if (List.length parts <? 7)%nat then Ret (Err ErrInvalidPRURL)
  else
    org <- index parts 3 ;;
    repo <- index parts 4 ;;
    prNumber <- index parts 6 ;;
    out <- call (CmdOutput ["gh"; "pr"; "diff"; "-R"; (org ++ "/" ++ repo)%string; prNumber]) ;;
    match snd out with
    | Some err => Ret (Err (ErrRunningGh err))
    | None => Ret (Ok (fst out))
    end.

(** What [getPRDiff] does once the URL has passed the check of line 94: one
    [gh] invocation, whose outcome is the result. *)
Definition gh_pr_diff (org repo prNumber : string) : Prog (result error string) :=
  out <- call (CmdOutput ["gh"; "pr"; "diff"; "-R"; (org ++ "/" ++ repo)%string; prNumber]) ;;
  match snd out with
  | Some err => Ret (Err (ErrRunningGh err))
  | None => Ret (Ok (fst out))
  end.

(** The argument vector of line 102 for a URL of at least seven segments. *)
Definition diff_command (prURL : string) : list string :=
  let parts := strings.Split prURL "/" in
  ["gh"; "pr"; "diff"; "-R"; (nth 3 parts "" ++ "/" ++ nth 4 parts "")%string; nth 6 parts ""].

(** The instruction appended to the diff (line 112). *)
Definition instruction : string :=
  String newline "Please provide a final consideration for this PR in Markdown format, focusing only on potential issues and ensuring the application's stability. Include an 'Approved: true/false' statement at the end for easy decision-making.Thank you!".

(** The request of lines 112-123. *)
Definition buildRequest (prDiff : string) : OpenAIRequest.t :=
  let prompt := (prDiff ++ instruction)%string in
  let message := OpenAIRequestMessages.mk "user" prompt in
  OpenAIRequest.mk openAIModel [message] half.

(** The request of lines 129-134, once [http.NewRequest] has accepted the
    method and the URL. *)
Definition newRequest (reqBody apiKey : string) : Request :=
  let req := mkRequest "POST" openAICompletionURL [] reqBody in
  let req := Header_Set req "Content-Type" "application/json" in
  Header_Set req "Authorization" ("Bearer " ++ apiKey)%string.

(** Lines 111-158.  The deferred [resp.Body.Close()] runs at every return
    after line 141. *)
Definition generateFinalConsideration (prDiff apiKey : string)
  : Prog (result error string) :=
  match json.Marshal (buildRequest prDiff) with
  | Err err => Ret (Err (ErrMarshal err))
  | Ok reqBody =>
      nerr <- call (HttpNewRequest "POST" openAICompletionURL reqBody) ;;
      match nerr with
      | Some err => Ret (Err (ErrCreatingRequest err))
      | None =>
          r <- call (ClientDo (newRequest reqBody apiKey)) ;;
          match r with
          | Err err => Ret (Err (ErrMakingRequest err))
          | Ok resp =>
              b <- call (ReadAll (RespBody resp)) ;;
              match snd b with
              | Some err =>
                  call (BodyClose (RespBody resp)) ;;
                  Ret (Err (ErrReadingResponse err))
              | None =>
                  u <- call (JsonUnmarshal (fst b)) ;;
                  match u with
                  | Err err =>
                      call (BodyClose (RespBody resp)) ;;
                      Ret (Err (ErrUnmarshal err))
                  | Ok openAIResp =>
                      if (List.length (OpenAIReponse.Choices openAIResp) =? 0)%nat
                      then
                        call (BodyClose (RespBody resp)) ;;
                        Ret (Err ErrNoResponse)
                      else
                        c <- index (OpenAIReponse.Choices openAIResp) 0 ;;
                        call (BodyClose (RespBody resp)) ;;
                        Ret (Ok (OpenAIReponse.Content (OpenAIReponse.Message c)))
                  end
              end
          end
      end
  end.

(** Lines 160-178.  [result] is a named result: it is the zero struct until
    the decoder writes into it through the pointer, and it is returned as it
    then is, with or without an error.  The deferred [file.Close()] runs at
    every return after line 170. *)
Definition loadConfig : Prog (FileConfig.t * option error) :=
  let result := FileConfig.zero in
  u <- call UserCurrent ;;
  match u with
  | Err _ => Ret (result, Some ErrCurrentUser)
  | Ok currentUser =>
      f <- call (OsOpen (HomeDir currentUser ++ CONFIG_FOLDER ++ FILENAME)%string) ;;
      match f with
      | Err err => Ret (result, Some (ErrOpeningToml err))
      | Ok file =>
          d <- call (TomlDecode file result) ;;
          let result := fst d in
          match snd d with
          | Some err =>
              call (FileClose file) ;;
              Ret (result, Some (ErrParsingToml err))
          | None =>
              call (FileClose file) ;;
              Ret (result, None)
          end
      end
  end.

(** Lines 77-89 of [main]: the stages that follow the check of the flag,
    with the URL and the key of the configuration they read. *)
Definition pipeline (prURL apiKey : string) : Prog unit :=
  d <- getPRDiff prURL ;;
  match d with
  | Err err => call (Println ["Error fetching PR diff:"; Error err])
  | Ok prDiff =>
      f <- generateFinalConsideration prDiff apiKey ;;
      match f with
      | Err err => call (Println ["Error generating final consideration:"; Error err])
      | Ok finalConsideration => call (Println [finalConsideration])
      end
  end.

Definition usage : string := "Usage: pr_review_cli -pr <PR_URL>".

(** Lines 65-90.  [pr] is the value given to the flag [-pr] on a command
    line that [flag.Parse] accepts, [None] when the flag is absent; the
    default of the flag is the empty string.  The error of [loadConfig] is
    assigned to [err] and never read: line 77 assigns [err] again. *)
Definition main (pr : option string) : Prog unit :=
  let prURL := match pr with Some v => v | None => "" end in
  c <- loadConfig ;;
  let cfg := fst c in
  if String.eqb prURL "" then call (Println [usage])
  else pipeline prURL (FileConfig.Key (FileConfig.ApiKey cfg)).

(** ** Running a program

    A [World] fixes the answer of every call: the machine the program runs
    on, the [gh] tool, the remote service, and the two library functions
    ([http.NewRequest], [json.Unmarshal]) whose code is not in main.go. *)

Record World : Type := mkWorld {
  user_Current : result string User;
  os_Open : string -> result string File;
  toml_Decode : File -> FileConfig.t -> FileConfig.t * option string;
  exec_Output : list string -> string * option string;
  http_NewRequest : string -> string -> string -> option string;
  client_Do : Request -> result string Response;
  io_ReadAll : ReadCloser -> string * option string;
  json_Unmarshal : string -> result string OpenAIReponse.t }.

Definition answer (w : World) {X : Type} (e : Eff X) : X :=
  match e in Eff T return T with
  | UserCurrent => user_Current w
  | OsOpen name => os_Open w name
  | TomlDecode file into => toml_Decode w file into
  | FileClose _ => tt
  | Println _ => tt
  | CmdOutput argv => exec_Output w argv
  | HttpNewRequest method url body => http_NewRequest w method url body
  | ClientDo req => client_Do w req
  | ReadAll body => io_ReadAll w body
  | BodyClose _ => tt
  | JsonUnmarshal data => json_Unmarshal w data
  end.

(** A call that was made. *)
Inductive Event : Type :=
| Called (X : Type) (e : Eff X).

Arguments Called {X} e.

(** The calls a program makes in a world, in order, and the value it
    returns ([None] when it panics). *)
Fixpoint exec {A : Type} (w : World) (p : Prog A) : list Event * option A :=
  match p with
  | Ret a => ([], Some a)
  | Panic _ => ([], None)
  | Vis e k =>
      let r := exec w (k (answer w e)) in
      (Called e :: fst r, snd r)
  end.

Definition trace {A : Type} (w : World) (p : Prog A) : list Event := fst (exec w p).
Definition returned {A : Type} (w : World) (p : Prog A) : option A := snd (exec w p).

(** The exit status of the process whose [main] is [p]: 0 when [main]
    returns, 2 when a panic ends it. *)
Definition exit_code (w : World) (p : Prog unit) : Z :=
  match returned w p with
  | Some _ => 0
  | None => 2
  end.

(** The subprocesses started, by their argument vectors. *)
Definition spawned (ev : Event) : option (list string) :=
  match ev with
  | Called e => match e with CmdOutput argv => Some argv | _ => None end
  end.

Fixpoint processes (t : list Event) : list (list string) :=
  match t with
  | [] => []
  | ev :: t' =>
      match spawned ev with
      | Some argv => argv :: processes t'
      | None => processes t'
      end
  end.

(** The requests sent over the network. *)
Definition sent (ev : Event) : option Request :=
  match ev with
  | Called e => match e with ClientDo req => Some req | _ => None end
  end.

Fixpoint requests (t : list Event) : list Request :=
  match t with
  | [] => []
  | ev :: t' =>
      match sent ev with
      | Some req => req :: requests t'
      | None => requests t'
      end
  end.

(** [fmt.Println]: the operands separated by spaces, then a newline. *)
Definition Sprintln (operands : list string) : string :=
  (String.concat " " operands ++ String newline EmptyString)%string.

(** A text without a newline in it. *)
Fixpoint one_line (s : string) : bool :=
  match s with
  | EmptyString => true
  | String c s' => negb (Ascii.eqb c newline) && one_line s'
  end.

Definition printed (ev : Event) : option (list string) :=
  match ev with
  | Called e => match e with Println operands => Some operands | _ => None end
  end.

(** What a run writes on standard output. *)
Fixpoint stdout (t : list Event) : string :=
  match t with
  | [] => EmptyString
  | ev :: t' =>
      match printed ev with
      | Some operands => (Sprintln operands ++ stdout t')%string
      | None => stdout t'
      end
  end.

(** The calls that touch the configuration: the user database and the
    configuration file. *)
Definition is_config_call (ev : Event) : bool :=
  match ev with
  | Called e =>
      match e with
      | UserCurrent | OsOpen _ | TomlDecode _ _ | FileClose _ => true
      | _ => false
      end
  end.

(** ** The serialized request, as text and as a document *)

(** The text [json.Marshal] writes before and after the content of the one
    message. *)
Definition body_prefix : string :=
  ("{" ++ json.member "model" (json.appendString openAIModel)
   ++ "," ++ json.appendString "messages" ++ ":[{"
   ++ json.member "role" (json.appendString "user")
   ++ "," ++ json.appendString "content" ++ ":" ++ String dquote "")%string.

Definition body_suffix : string :=
  ("}]," ++ json.member "temperature" (json.FormatFloat half) ++ "}")%string.

(** The document of a request whose one message has the content
    [content]. *)
Definition request_document (content : string) : Inspect.value :=
  Inspect.JObject
    [("model", Inspect.JString "gpt-3.5-turbo-1106");
     ("messages",
      Inspect.JArray
        [Inspect.JObject
           [("role", Inspect.JString "user");
            ("content", Inspect.JString content)]]);
     ("temperature", Inspect.JNumber (Inspect.mkNumber false 5 (-1)))].

(** ** Worlds to run the program in *)

Module Sample.

Definition review : string :=
  ("LGTM" ++ String newline "Approved: true")%string.

Definition config : FileConfig.t :=
  FileConfig.mk (FileConfig.mkApiKey "sk-test") (FileConfig.mkPrompt "").

Definition completion (choices : list OpenAIReponse.choice) : OpenAIReponse.t :=
  OpenAIReponse.mk "chatcmpl-1" "chat.completion" 1700000000 openAIModel
    (OpenAIReponse.mkUsage 10 5 15) choices.

Definition choice (content : string) : OpenAIReponse.choice :=
  OpenAIReponse.mkChoice (OpenAIReponse.mkMessage "assistant" content) "stop" 0.

(** Everything works: the configuration is read, [gh] prints a diff and
    the service answers with the completion [resp]. *)
Definition answering (resp : OpenAIReponse.t) : World :=
  mkWorld (Ok (mkUser "/home/dev"))
          (fun name => Ok name)
          (fun _ _ => (config, None))
          (fun _ => ("diff --git a/x b/x", None))
          (fun _ _ _ => None)
          (fun _ => Ok (mkResponse 1))
          (fun _ => ("{}", None))
          (fun _ => Ok resp).

Definition good : World := answering (completion [choice review]).

(** The service answers with no choice at all. *)
Definition empty_choices : World := answering (completion []).

(** [gh] fails. *)
Definition gh_fails : World :=
  mkWorld (Ok (mkUser "/home/dev"))
          (fun name => Ok name)
          (fun _ _ => (config, None))
          (fun _ => ("", Some "exit status 1"))
          (fun _ _ _ => None)
          (fun _ => Ok (mkResponse 1))
          (fun _ => ("{}", None))
          (fun _ => Ok (completion [choice review])).

(** The current user cannot be found; the rest works. *)
Definition no_user : World :=
  mkWorld (Err "user: Current requires cgo or $USER set in environment")
          (fun name => Ok name)
          (fun _ _ => (config, None))
          (fun _ => ("diff --git a/x b/x", None))
          (fun _ _ _ => None)
          (fun _ => Ok (mkResponse 1))
          (fun _ => ("{}", None))
          (fun _ => Ok (completion [choice review])).

(** The configuration file has a key and then a line that does not parse:
    the decoder has stored the key when it reports the error. *)
Definition half_parsed : World :=
  mkWorld (Ok (mkUser "/home/dev"))
          (fun name => Ok name)
          (fun _ _ => (config, Some "toml: expected character ="))
          (fun _ => ("diff --git a/x b/x", None))
          (fun _ _ _ => None)
          (fun _ => Ok (mkResponse 1))
          (fun _ => ("{}", None))
          (fun _ => Ok (completion [choice review])).

(** A diff of a file in Latin-1: the line added ends with the byte E9,
    which is no UTF-8 sequence. *)
Definition latin1_diff : string :=
  ("+caf" ++ String (ascii_of_N 0xE9) "")%string.

Definition pr_url : string := "https://github.com/orgX/repoY/pull/123".

End Sample.


(** ** Observations used by the further properties *)

(** [strings.Count(s, string(c))]: how many bytes of [s] are [c]. *)
Fixpoint count_byte (c : ascii) (s : string) : nat :=
  match s with
  | EmptyString => O
  | String x s' => (if Ascii.eqb x c then 1 else 0) + count_byte c s'
  end.

(** The calls of a run that [f] selects, in order. *)
Fixpoint pick {A : Type} (f : Event -> option A) (t : list Event) : list A :=
  match t with
  | [] => []
  | ev :: t' =>
      match f ev with
      | Some a => a :: pick f t'
      | None => pick f t'
      end
  end.

(** The names given to [os.Open], the files closed, the response bodies
    closed. *)
Definition opened (ev : Event) : option string :=
  match ev with
  | Called e => match e with OsOpen name => Some name | _ => None end
  end.

Definition closed_file (ev : Event) : option File :=
  match ev with
  | Called e => match e with FileClose file => Some file | _ => None end
  end.

Definition closed_body (ev : Event) : option ReadCloser :=
  match ev with
  | Called e => match e with BodyClose body => Some body | _ => None end
  end.

(** The world [w] with another custom prompt in its configuration file:
    the decoder stores [custom] where it stored the prompt of [w], and all
    the rest is as in [w]. *)
Definition with_custom_prompt (custom : string) (w : World) : World :=
  mkWorld (user_Current w) (os_Open w)
    (fun file into =>
       (FileConfig.mk (FileConfig.ApiKey (fst (toml_Decode w file into)))
                      (FileConfig.mkPrompt custom),
        snd (toml_Decode w file into)))
    (exec_Output w) (http_NewRequest w) (client_Do w) (io_ReadAll w)
    (json_Unmarshal w).
(** * Properties *)

Unset Implicit Arguments.

(** ** Running sequences *)

Lemma exec_bind (A B : Type) (w : World) (p : Prog A) (f : A -> Prog B) :
  exec w (bind p f) =
  match snd (exec w p) with
  | Some a => (fst (exec w p) ++ fst (exec w (f a)), snd (exec w (f a)))
  | None => (fst (exec w p), None)
  end.
Proof.
  induction p as [a | msg | X e k IH]; simpl.
  - destruct (exec w (f a)); reflexivity.
  - reflexivity.
  - rewrite IH. destruct (snd (exec w (k (answer w e)))); reflexivity.
Qed.

Lemma trace_bind (A B : Type) (w : World) (p : Prog A) (f : A -> Prog B) :
  trace w (bind p f) =
  match returned w p with
  | Some a => trace w p ++ trace w (f a)
  | None => trace w p
  end.
Proof.
  unfold trace, returned. rewrite exec_bind.
  destruct (snd (exec w p)); reflexivity.
Qed.

Lemma returned_bind (A B : Type) (w : World) (p : Prog A) (f : A -> Prog B) :
  returned w (bind p f) =
  match returned w p with
  | Some a => returned w (f a)
  | None => None
  end.
Proof.
  unfold returned. rewrite exec_bind.
  destruct (snd (exec w p)); reflexivity.
Qed.

Lemma processes_app (t u : list Event) :
  processes (t ++ u) = processes t ++ processes u.
Proof.
  induction t as [| ev t IH]; simpl; [reflexivity |].
  destruct (spawned ev); simpl; rewrite IH; reflexivity.
Qed.

Lemma requests_app (t u : list Event) :
  requests (t ++ u) = requests t ++ requests u.
Proof.
  induction t as [| ev t IH]; simpl; [reflexivity |].
  destruct (sent ev); simpl; rewrite IH; reflexivity.
Qed.

Lemma string_app_assoc (a b c : string) : ((a ++ b) ++ c = a ++ (b ++ c))%string.
Proof.
  induction a as [| x a IH]; simpl; [reflexivity | rewrite IH; reflexivity].
Qed.

Lemma string_app_nil_r (a : string) : (a ++ "" = a)%string.
Proof.
  induction a as [| x a IH]; simpl; [reflexivity | rewrite IH; reflexivity].
Qed.

Lemma stdout_app (t u : list Event) :
  stdout (t ++ u) = (stdout t ++ stdout u)%string.
Proof.
  induction t as [| ev t IH]; simpl; [reflexivity |].
  destruct (printed ev); rewrite IH; [rewrite string_app_assoc |]; reflexivity.
Qed.

(** ** The diff fetcher *)

(** In range, indexing returns the element. *)
Lemma index_in_range (A : Type) (a : list A) (i : nat) (d : A) :
  i < List.length a -> index a i = Ret (nth i a d).
Proof.
  intros H. unfold index. rewrite (nth_error_nth' a d H). reflexivity.
Qed.

Lemma getPRDiff_long (prURL : string) :
  let parts := strings.Split prURL "/" in
  7 <= List.length parts ->
  getPRDiff prURL = gh_pr_diff (nth 3 parts "") (nth 4 parts "") (nth 6 parts "").
Proof.
  intros parts H. unfold getPRDiff. fold parts.
  destruct (Nat.ltb_spec (List.length parts) 7) as [Hlt | _]; [lia |].
  rewrite (index_in_range string parts 3 "") by lia.
  rewrite (index_in_range string parts 4 "") by lia.
  rewrite (index_in_range string parts 6 "") by lia.
  reflexivity.
Qed.

Lemma getPRDiff_short (prURL : string) :
  List.length (strings.Split prURL "/") < 7 ->
  getPRDiff prURL = Ret (Err ErrInvalidPRURL).
Proof.
  intros H. unfold getPRDiff.
  destruct (Nat.ltb_spec (List.length (strings.Split prURL "/")) 7) as [_ | Hge];
    [reflexivity | lia].
Qed.

Lemma split_empty_url : strings.Split "" "/" = [EmptyString].
Proof. reflexivity. Qed.

Lemma long_url_not_empty (prURL : string) :
  7 <= List.length (strings.Split prURL "/") -> String.eqb prURL "" = false.
Proof.
  intros H. destruct prURL as [| c s]; [| reflexivity].
  rewrite split_empty_url in H. simpl in H. lia.
Qed.

(** The argument vector of line 102. *)
Lemma gh_pr_diff_trace (w : World) (org repo prNumber : string) :
  trace w (gh_pr_diff org repo prNumber) =
  [Called (CmdOutput ["gh"; "pr"; "diff"; "-R"; (org ++ "/" ++ repo)%string; prNumber])].
Proof.
  unfold trace, gh_pr_diff. simpl.
  destruct (snd (exec_Output w _)); reflexivity.
Qed.

(** ** Loading the configuration *)

(** The three ways [loadConfig] fails and the one way it succeeds, with the
    configuration it returns in each. *)
Lemma loadConfig_cases (w : World) :
  (exists cause, user_Current w = Err cause /\
     exec w loadConfig = ([Called UserCurrent], Some (FileConfig.zero, Some ErrCurrentUser)))
  \/ (exists u cause,
        user_Current w = Ok u /\
        os_Open w (HomeDir u ++ CONFIG_FOLDER ++ FILENAME)%string = Err cause /\
        exec w loadConfig =
        ([Called UserCurrent; Called (OsOpen (HomeDir u ++ CONFIG_FOLDER ++ FILENAME)%string)],
         Some (FileConfig.zero, Some (ErrOpeningToml cause))))
  \/ (exists u file,
        user_Current w = Ok u /\
        os_Open w (HomeDir u ++ CONFIG_FOLDER ++ FILENAME)%string = Ok file /\
        exec w loadConfig =
        ([Called UserCurrent; Called (OsOpen (HomeDir u ++ CONFIG_FOLDER ++ FILENAME)%string);
          Called (TomlDecode file FileConfig.zero); Called (FileClose file)],
         Some (fst (toml_Decode w file FileConfig.zero),
               match snd (toml_Decode w file FileConfig.zero) with
               | Some cause => Some (ErrParsingToml cause)
               | None => None
               end))).
Proof.
  unfold loadConfig. cbn [bind call exec answer fst snd].
  destruct (user_Current w) as [u | cause] eqn:Hu.
  - right. cbn [bind call exec answer fst snd].
    destruct (os_Open w (HomeDir u ++ CONFIG_FOLDER ++ FILENAME)%string) as [file | cause] eqn:Ho.
    + right. exists u, file. repeat split; try assumption.
      cbn [bind call exec answer fst snd].
      destruct (snd (toml_Decode w file FileConfig.zero)); reflexivity.
    + left. exists u, cause. repeat split; assumption.
  - left. exists cause. split; reflexivity.
Qed.

(** [loadConfig] always returns, and all it does is read the configuration:
    it starts no process, sends no request and prints nothing. *)
Lemma loadConfig_quiet (w : World) :
  (exists c, returned w loadConfig = Some c)
  /\ forallb is_config_call (trace w loadConfig) = true
  /\ processes (trace w loadConfig) = []
  /\ requests (trace w loadConfig) = []
  /\ stdout (trace w loadConfig) = EmptyString.
Proof.
  unfold trace, returned.
  destruct (loadConfig_cases w) as [(c & _ & E) | [(u & c & _ & _ & E) | (u & f & _ & _ & E)]];
    rewrite E; simpl; repeat split; eauto.
Qed.

(** ** The shape of a run of [main] *)

Lemma main_no_flag (w : World) (pr : option string) :
  match pr with Some v => v | None => EmptyString end = EmptyString ->
  trace w (main pr) = trace w loadConfig ++ [Called (Println [usage])]
  /\ returned w (main pr) = Some tt.
Proof.
  intros Hpr. unfold main. rewrite Hpr. simpl String.eqb. cbv beta iota.
  destruct (loadConfig_quiet w) as ((c & Hc) & _).
  rewrite trace_bind, returned_bind, Hc. split; reflexivity.
Qed.

Lemma main_with_flag (w : World) (prURL : string) (cfg : FileConfig.t) (lerr : option error) :
  String.eqb prURL "" = false ->
  returned w loadConfig = Some (cfg, lerr) ->
  trace w (main (Some prURL)) =
    trace w loadConfig ++ trace w (pipeline prURL (FileConfig.Key (FileConfig.ApiKey cfg)))
  /\ returned w (main (Some prURL)) =
       returned w (pipeline prURL (FileConfig.Key (FileConfig.ApiKey cfg))).
Proof.
  intros Hpr Hc. unfold main.
  rewrite trace_bind, returned_bind, Hc. cbv beta iota. simpl fst.
  rewrite Hpr. split; reflexivity.
Qed.

(** A run whose diff stage fails: the error is printed and nothing follows. *)
Lemma pipeline_diff_fails (w : World) (prURL apiKey : string) (e : error) :
  returned w (getPRDiff prURL) = Some (Err e) ->
  trace w (pipeline prURL apiKey) =
    trace w (getPRDiff prURL) ++ [Called (Println ["Error fetching PR diff:"; Error e])]
  /\ returned w (pipeline prURL apiKey) = Some tt.
Proof.
  intros H. unfold pipeline. rewrite trace_bind, returned_bind, H. split; reflexivity.
Qed.

(** A run whose diff stage succeeds goes on with the review stage, and its
    outcome is printed. *)
Lemma pipeline_diff_ok (w : World) (prURL apiKey prDiff : string) (f : result error string) :
  returned w (getPRDiff prURL) = Some (Ok prDiff) ->
  returned w (generateFinalConsideration prDiff apiKey) = Some f ->
  trace w (pipeline prURL apiKey) =
    trace w (getPRDiff prURL) ++ trace w (generateFinalConsideration prDiff apiKey)
    ++ [Called (Println match f with
                        | Err e => ["Error generating final consideration:"; Error e]
                        | Ok finalConsideration => [finalConsideration]
                        end)]
  /\ returned w (pipeline prURL apiKey) = Some tt.
Proof.
  intros Hd Hf. unfold pipeline.
  rewrite trace_bind, returned_bind, Hd. cbv beta iota.
  rewrite trace_bind, returned_bind, Hf.
  destruct f; split; reflexivity.
Qed.

(** ** Claims about the diff fetcher *)

(** C1.  A URL that splits on [/] into at least seven segments makes the
    fetcher start exactly one process, [gh pr diff -R org/repo number], with
    the organization taken from segment 3, the repository from segment 4
    and the pull-request number from segment 6. *)
Theorem C1_getPRDiff_targets_segments (w : World) (prURL : string) :
  7 <= List.length (strings.Split prURL "/") ->
  trace w (getPRDiff prURL) =
    [Called (CmdOutput ["gh"; "pr"; "diff"; "-R";
                        (nth 3 (strings.Split prURL "/") "" ++ "/"
                         ++ nth 4 (strings.Split prURL "/") "")%string;
                        nth 6 (strings.Split prURL "/") ""])]
  /\ nth_error (strings.Split prURL "/") 3 = Some (nth 3 (strings.Split prURL "/") "")
  /\ nth_error (strings.Split prURL "/") 4 = Some (nth 4 (strings.Split prURL "/") "")
  /\ nth_error (strings.Split prURL "/") 6 = Some (nth 6 (strings.Split prURL "/") "").
Proof.
  intros H.
  rewrite (getPRDiff_long prURL H), gh_pr_diff_trace.
  repeat split; apply nth_error_nth'; lia.
Qed.

(** For https://github.com/orgX/repoY/pull/123 the process is
    [gh pr diff -R orgX/repoY 123]. *)
Lemma C1_witness :
  7 <= List.length (strings.Split Sample.pr_url "/")
  /\ trace Sample.good (getPRDiff Sample.pr_url) =
       [Called (CmdOutput ["gh"; "pr"; "diff"; "-R"; "orgX/repoY"; "123"])]
  /\ nth_error (strings.Split Sample.pr_url "/") 3 = Some "orgX"
  /\ nth_error (strings.Split Sample.pr_url "/") 4 = Some "repoY"
  /\ nth_error (strings.Split Sample.pr_url "/") 6 = Some "123".
Proof.
  split; [vm_compute; lia |].
  exact (C1_getPRDiff_targets_segments Sample.good Sample.pr_url
           ltac:(vm_compute; lia)).
Defined.

(** C2.  A URL that splits into fewer than seven segments is rejected with
    the invalid-URL error before the fetcher makes any call at all, and the
    whole run of [main] on it starts no process and sends no request. *)
Theorem C2_short_url_rejected (w : World) (prURL : string) :
  List.length (strings.Split prURL "/") < 7 ->
  exec w (getPRDiff prURL) = ([], Some (Err ErrInvalidPRURL))
  /\ kind_of ErrInvalidPRURL = InvalidURLError
  /\ processes (trace w (main (Some prURL))) = []
  /\ requests (trace w (main (Some prURL))) = [].
Proof.
  intros H.
  assert (E : exec w (getPRDiff prURL) = ([], Some (Err ErrInvalidPRURL)))
    by (rewrite (getPRDiff_short prURL H); reflexivity).
  split; [exact E | split; [reflexivity |]].
  destruct (loadConfig_quiet w) as (((cfg, lerr) & Hc) & _ & Hp & Hr & _).
  destruct (String.eqb prURL "") eqn:Hpr.
  - apply String.eqb_eq in Hpr. subst prURL.
    destruct (main_no_flag w (Some EmptyString) eq_refl) as [Ht _].
    rewrite Ht, processes_app, requests_app, Hp, Hr. split; reflexivity.
  - destruct (main_with_flag w prURL cfg lerr Hpr Hc) as [Ht _].
    assert (Hret : returned w (getPRDiff prURL) = Some (Err ErrInvalidPRURL))
      by (unfold returned; rewrite E; reflexivity).
    destruct (pipeline_diff_fails w prURL
                (FileConfig.Key (FileConfig.ApiKey cfg)) _ Hret) as [Hq _].
    rewrite Ht, Hq. unfold trace at 2 4. rewrite E.
    rewrite !processes_app, !requests_app, Hp, Hr. split; reflexivity.
Qed.

Lemma C2_witness :
  List.length (strings.Split "https://github.com/orgX/repoY" "/") < 7
  /\ exec Sample.good (getPRDiff "https://github.com/orgX/repoY")
     = ([], Some (Err ErrInvalidPRURL))
  /\ kind_of ErrInvalidPRURL = InvalidURLError
  /\ processes (trace Sample.good (main (Some "https://github.com/orgX/repoY"))) = []
  /\ requests (trace Sample.good (main (Some "https://github.com/orgX/repoY"))) = [].
Proof.
  split; [vm_compute; lia |].
  exact (C2_short_url_rejected Sample.good "https://github.com/orgX/repoY"
           ltac:(vm_compute; lia)).
Defined.

(** C10.  Beyond the count of segments nothing of the URL is checked: two
    URLs of at least seven segments that agree on segments 3, 4 and 6 make
    the fetcher the same program, so the same single [gh] invocation,
    whatever the other segments are and also when segments are empty. *)
Theorem C10_only_three_segments_matter (w : World) (u1 u2 : string) :
  7 <= List.length (strings.Split u1 "/") ->
  7 <= List.length (strings.Split u2 "/") ->
  nth 3 (strings.Split u1 "/") "" = nth 3 (strings.Split u2 "/") "" ->
  nth 4 (strings.Split u1 "/") "" = nth 4 (strings.Split u2 "/") "" ->
  nth 6 (strings.Split u1 "/") "" = nth 6 (strings.Split u2 "/") "" ->
  getPRDiff u1 = getPRDiff u2
  /\ processes (trace w (getPRDiff u1)) =
       [["gh"; "pr"; "diff"; "-R";
         (nth 3 (strings.Split u1 "/") "" ++ "/" ++ nth 4 (strings.Split u1 "/") "")%string;
         nth 6 (strings.Split u1 "/") ""]]
  /\ processes (trace w (getPRDiff u2)) = processes (trace w (getPRDiff u1)).
Proof.
  intros H1 H2 E3 E4 E6.
  assert (E : getPRDiff u1 = getPRDiff u2).
  { rewrite (getPRDiff_long u1 H1), (getPRDiff_long u2 H2), E3, E4, E6. reflexivity. }
  split; [exact E | split; [| rewrite E; reflexivity]].
  rewrite (getPRDiff_long u1 H1), gh_pr_diff_trace. reflexivity.
Qed.

(** Seven empty segments against a URL with other text around them: the
    invocation is [gh pr diff -R / ""] for both. *)
Lemma C10_witness :
  getPRDiff "//////" = getPRDiff "x/y/z///w//tail"
  /\ processes (trace Sample.good (getPRDiff "//////")) =
       [["gh"; "pr"; "diff"; "-R"; "/"; ""]]
  /\ processes (trace Sample.good (getPRDiff "x/y/z///w//tail")) =
       processes (trace Sample.good (getPRDiff "//////")).
Proof.
  exact (C10_only_three_segments_matter Sample.good "//////" "x/y/z///w//tail"
           ltac:(vm_compute; lia) ltac:(vm_compute; lia)
           eq_refl eq_refl eq_refl).
Defined.

(** ** The review generator, stage by stage *)

Section Generator.

Variable w : World.
Variables prDiff apiKey : string.

Abbreviation reqBody := (json.encode_OpenAIRequest (buildRequest prDiff)).
Abbreviation req := (newRequest (json.encode_OpenAIRequest (buildRequest prDiff)) apiKey).

Ltac run_generator :=
  unfold generateFinalConsideration, json.Marshal;
  cbn [bind call exec answer fst snd].

Ltac step H := rewrite H; cbn [bind call exec answer fst snd].

Lemma generate_request_rejected (cause : string) :
  http_NewRequest w "POST" openAICompletionURL reqBody = Some cause ->
  exec w (generateFinalConsideration prDiff apiKey) =
  ([Called (HttpNewRequest "POST" openAICompletionURL reqBody)],
   Some (Err (ErrCreatingRequest cause))).
Proof.
  intros H1. run_generator. step H1. reflexivity.
Qed.

Lemma generate_request_fails (cause : string) :
  http_NewRequest w "POST" openAICompletionURL reqBody = None ->
  client_Do w req = Err cause ->
  exec w (generateFinalConsideration prDiff apiKey) =
  ([Called (HttpNewRequest "POST" openAICompletionURL reqBody); Called (ClientDo req)],
   Some (Err (ErrMakingRequest cause))).
Proof.
  intros H1 H2. run_generator. step H1. step H2. reflexivity.
Qed.

Lemma generate_read_fails (resp : Response) (body cause : string) :
  http_NewRequest w "POST" openAICompletionURL reqBody = None ->
  client_Do w req = Ok resp ->
  io_ReadAll w (RespBody resp) = (body, Some cause) ->
  exec w (generateFinalConsideration prDiff apiKey) =
  ([Called (HttpNewRequest "POST" openAICompletionURL reqBody); Called (ClientDo req);
    Called (ReadAll (RespBody resp)); Called (BodyClose (RespBody resp))],
   Some (Err (ErrReadingResponse cause))).
Proof.
  intros H1 H2 H3. run_generator. step H1. step H2. step H3. reflexivity.
Qed.

Lemma generate_unmarshal_fails (resp : Response) (body cause : string) :
  http_NewRequest w "POST" openAICompletionURL reqBody = None ->
  client_Do w req = Ok resp ->
  io_ReadAll w (RespBody resp) = (body, None) ->
  json_Unmarshal w body = Err cause ->
  exec w (generateFinalConsideration prDiff apiKey) =
  ([Called (HttpNewRequest "POST" openAICompletionURL reqBody); Called (ClientDo req);
    Called (ReadAll (RespBody resp)); Called (JsonUnmarshal body);
    Called (BodyClose (RespBody resp))],
   Some (Err (ErrUnmarshal cause))).
Proof.
  intros H1 H2 H3 H4. run_generator. step H1. step H2. step H3. step H4. reflexivity.
Qed.

Lemma generate_no_choice (resp : Response) (body : string) (r : OpenAIReponse.t) :
  http_NewRequest w "POST" openAICompletionURL reqBody = None ->
  client_Do w req = Ok resp ->
  io_ReadAll w (RespBody resp) = (body, None) ->
  json_Unmarshal w body = Ok r ->
  OpenAIReponse.Choices r = [] ->
  exec w (generateFinalConsideration prDiff apiKey) =
  ([Called (HttpNewRequest "POST" openAICompletionURL reqBody); Called (ClientDo req);
    Called (ReadAll (RespBody resp)); Called (JsonUnmarshal body);
    Called (BodyClose (RespBody resp))],
   Some (Err ErrNoResponse)).
Proof.
  intros H1 H2 H3 H4 H5. run_generator. step H1. step H2. step H3. step H4.
  rewrite H5. reflexivity.
Qed.

Lemma generate_first_choice (resp : Response) (body : string) (r : OpenAIReponse.t)
      (c : OpenAIReponse.choice) (rest : list OpenAIReponse.choice) :
  http_NewRequest w "POST" openAICompletionURL reqBody = None ->
  client_Do w req = Ok resp ->
  io_ReadAll w (RespBody resp) = (body, None) ->
  json_Unmarshal w body = Ok r ->
  OpenAIReponse.Choices r = c :: rest ->
  exec w (generateFinalConsideration prDiff apiKey) =
  ([Called (HttpNewRequest "POST" openAICompletionURL reqBody); Called (ClientDo req);
    Called (ReadAll (RespBody resp)); Called (JsonUnmarshal body);
    Called (BodyClose (RespBody resp))],
   Some (Ok (OpenAIReponse.Content (OpenAIReponse.Message c)))).
Proof.
  intros H1 H2 H3 H4 H5. run_generator. step H1. step H2. step H3. step H4.
  rewrite H5. reflexivity.
Qed.

(** The generator never panics: the first choice is read only after the
    check of line 153. *)
Lemma generate_returns :
  exists f, returned w (generateFinalConsideration prDiff apiKey) = Some f.
Proof.
  unfold returned.
  destruct (http_NewRequest w "POST" openAICompletionURL reqBody) as [c |] eqn:H1.
  { rewrite (generate_request_rejected _ H1). cbn [snd]. eauto. }
  destruct (client_Do w req) as [resp | c] eqn:H2.
  2: { rewrite (generate_request_fails _ H1 H2). cbn [snd]. eauto. }
  destruct (io_ReadAll w (RespBody resp)) as [body [c |]] eqn:H3.
  { rewrite (generate_read_fails _ _ _ H1 H2 H3). cbn [snd]. eauto. }
  destruct (json_Unmarshal w body) as [r | c] eqn:H4.
  2: { rewrite (generate_unmarshal_fails _ _ _ H1 H2 H3 H4). cbn [snd]. eauto. }
  destruct (OpenAIReponse.Choices r) as [| c rest] eqn:H5.
  - rewrite (generate_no_choice _ _ _ H1 H2 H3 H4 H5). cbn [snd]. eauto.
  - rewrite (generate_first_choice _ _ _ _ _ H1 H2 H3 H4 H5). cbn [snd]. eauto.
Qed.

(** A failure of the generator is never a configuration, URL or diff
    error, and it happens before anything is printed. *)
Lemma generate_quiet :
  stdout (trace w (generateFinalConsideration prDiff apiKey)) = EmptyString
  /\ processes (trace w (generateFinalConsideration prDiff apiKey)) = [].
Proof.
  unfold trace.
  destruct (http_NewRequest w "POST" openAICompletionURL reqBody) as [c |] eqn:H1.
  { rewrite (generate_request_rejected _ H1). split; reflexivity. }
  destruct (client_Do w req) as [resp | c] eqn:H2.
  2: { rewrite (generate_request_fails _ H1 H2). split; reflexivity. }
  destruct (io_ReadAll w (RespBody resp)) as [body [c |]] eqn:H3.
  { rewrite (generate_read_fails _ _ _ H1 H2 H3). split; reflexivity. }
  destruct (json_Unmarshal w body) as [r | c] eqn:H4.
  2: { rewrite (generate_unmarshal_fails _ _ _ H1 H2 H3 H4). split; reflexivity. }
  destruct (OpenAIReponse.Choices r) as [| c rest] eqn:H5.
  - rewrite (generate_no_choice _ _ _ H1 H2 H3 H4 H5). split; reflexivity.
  - rewrite (generate_first_choice _ _ _ _ _ H1 H2 H3 H4 H5). split; reflexivity.
Qed.

End Generator.

(** ** Runs of [main] *)

Lemma getPRDiff_returns (w : World) (prURL : string) :
  exists d, returned w (getPRDiff prURL) = Some d.
Proof.
  destruct (Nat.lt_ge_cases (List.length (strings.Split prURL "/")) 7) as [H | H].
  - rewrite (getPRDiff_short prURL H). eexists. reflexivity.
  - rewrite (getPRDiff_long prURL H). unfold returned, gh_pr_diff.
    cbn [bind call exec answer fst snd].
    destruct (snd (exec_Output w _)); eexists; reflexivity.
Qed.

Lemma getPRDiff_quiet (w : World) (prURL : string) :
  stdout (trace w (getPRDiff prURL)) = EmptyString
  /\ requests (trace w (getPRDiff prURL)) = [].
Proof.
  destruct (Nat.lt_ge_cases (List.length (strings.Split prURL "/")) 7) as [H | H].
  - rewrite (getPRDiff_short prURL H). split; reflexivity.
  - rewrite (getPRDiff_long prURL H), gh_pr_diff_trace. split; reflexivity.
Qed.

Lemma getPRDiff_run (w : World) (prURL : string) :
  7 <= List.length (strings.Split prURL "/") ->
  exec w (getPRDiff prURL) =
  ([Called (CmdOutput (diff_command prURL))],
   Some match snd (exec_Output w (diff_command prURL)) with
        | Some cause => Err (ErrRunningGh cause)
        | None => Ok (fst (exec_Output w (diff_command prURL)))
        end).
Proof.
  intros H. rewrite (getPRDiff_long prURL H). unfold gh_pr_diff, diff_command.
  cbn [bind call exec answer fst snd].
  destruct (snd (exec_Output w _)); reflexivity.
Qed.

(** [main] always returns: no index is read out of range. *)
Lemma main_returns (w : World) (pr : option string) : returned w (main pr) = Some tt.
Proof.
  destruct (loadConfig_quiet w) as (((cfg, lerr) & Hc) & _).
  destruct (String.eqb match pr with Some v => v | None => EmptyString end "") eqn:Hpr.
  - apply String.eqb_eq in Hpr. apply (main_no_flag w pr Hpr).
  - destruct pr as [prURL |]; [| discriminate].
    destruct (main_with_flag w prURL cfg lerr Hpr Hc) as [_ ->].
    destruct (getPRDiff_returns w prURL) as ([prDiff | e] & Hd).
    + destruct (generate_returns w prDiff (FileConfig.Key (FileConfig.ApiKey cfg)))
        as (f & Hf).
      apply (pipeline_diff_ok w prURL _ _ _ Hd Hf).
    + apply (pipeline_diff_fails w prURL _ _ Hd).
Qed.

Lemma main_exit_zero (w : World) (pr : option string) : exit_code w (main pr) = 0%Z.
Proof. unfold exit_code. rewrite main_returns. reflexivity. Qed.

Lemma stdout_println (operands : list string) :
  stdout [Called (Println operands)] = Sprintln operands.
Proof. simpl. apply string_app_nil_r. Qed.

(** The output of a run with a URL: what the stages print after the
    silent load of the configuration. *)
Lemma main_stdout_diff_fails (w : World) (prURL : string) (e : error) :
  String.eqb prURL "" = false ->
  returned w (getPRDiff prURL) = Some (Err e) ->
  trace w (main (Some prURL)) =
    trace w loadConfig ++ trace w (getPRDiff prURL)
    ++ [Called (Println ["Error fetching PR diff:"; Error e])]
  /\ stdout (trace w (main (Some prURL))) = Sprintln ["Error fetching PR diff:"; Error e].
Proof.
  intros Hpr Hd.
  destruct (loadConfig_quiet w) as (((cfg, lerr) & Hc) & _ & _ & _ & Hs).
  destruct (main_with_flag w prURL cfg lerr Hpr Hc) as [Ht _].
  destruct (pipeline_diff_fails w prURL (FileConfig.Key (FileConfig.ApiKey cfg)) e Hd)
    as [Hq _].
  rewrite Ht, Hq. split; [reflexivity |].
  rewrite !stdout_app, Hs, (proj1 (getPRDiff_quiet w prURL)), stdout_println.
  reflexivity.
Qed.

Lemma main_stdout_diff_ok (w : World) (prURL prDiff : string) (cfg : FileConfig.t)
      (lerr : option error) (f : result error string) :
  String.eqb prURL "" = false ->
  returned w loadConfig = Some (cfg, lerr) ->
  returned w (getPRDiff prURL) = Some (Ok prDiff) ->
  returned w (generateFinalConsideration prDiff (FileConfig.Key (FileConfig.ApiKey cfg)))
    = Some f ->
  trace w (main (Some prURL)) =
    trace w loadConfig ++ trace w (getPRDiff prURL)
    ++ trace w (generateFinalConsideration prDiff (FileConfig.Key (FileConfig.ApiKey cfg)))
    ++ [Called (Println match f with
                        | Err e => ["Error generating final consideration:"; Error e]
                        | Ok finalConsideration => [finalConsideration]
                        end)]
  /\ stdout (trace w (main (Some prURL))) =
       Sprintln match f with
                | Err e => ["Error generating final consideration:"; Error e]
                | Ok finalConsideration => [finalConsideration]
                end.
Proof.
  intros Hpr Hc Hd Hf.
  destruct (loadConfig_quiet w) as (_ & _ & _ & _ & Hs).
  destruct (main_with_flag w prURL cfg lerr Hpr Hc) as [Ht _].
  destruct (pipeline_diff_ok w prURL _ _ _ Hd Hf) as [Hq _].
  rewrite Ht, Hq. split; [reflexivity |].
  rewrite !stdout_app, Hs, (proj1 (getPRDiff_quiet w prURL)),
    (proj1 (generate_quiet w prDiff _)), stdout_println.
  reflexivity.
Qed.

Lemma one_line_app (a b : string) :
  one_line (a ++ b) = one_line a && one_line b.
Proof.
  induction a as [| c a IH]; simpl; [reflexivity |].
  rewrite IH. apply andb_assoc.
Qed.

(** The message of an error is one line when the library error it wraps
    is. *)
Lemma Error_one_line (e : error) :
  (forall c, cause_of e = Some c -> one_line c = true) ->
  one_line (Error e) = true.
Proof.
  intros H.
  destruct e; unfold Error; try reflexivity;
    rewrite one_line_app, (H _ eq_refl); reflexivity.
Qed.

(** ** Claims about failures of the stages *)

(** C6.  When the [gh] command ends with an error (a non-zero exit or a
    failure to start), the fetcher returns the diff-fetch error wrapping the
    error of the process, and the run ends after printing it: the only calls
    after the load of the configuration are the command and the print, so no
    request is built or sent to the language-model endpoint. *)
Theorem C6_diff_command_failure (w : World) (prURL out cause : string) :
  7 <= List.length (strings.Split prURL "/") ->
  exec_Output w (diff_command prURL) = (out, Some cause) ->
  returned w (getPRDiff prURL) = Some (Err (ErrRunningGh cause))
  /\ kind_of (ErrRunningGh cause) = DiffFetchError
  /\ Error (ErrRunningGh cause) = ("error running gh pr diff: " ++ cause)%string
  /\ trace w (main (Some prURL)) =
       trace w loadConfig
       ++ [Called (CmdOutput (diff_command prURL));
           Called (Println ["Error fetching PR diff:"; Error (ErrRunningGh cause)])]
  /\ requests (trace w (main (Some prURL))) = [].
Proof.
  intros Hlen Hgh.
  assert (E : exec w (getPRDiff prURL) =
              ([Called (CmdOutput (diff_command prURL))], Some (Err (ErrRunningGh cause))))
    by (rewrite (getPRDiff_run w prURL Hlen), Hgh; reflexivity).
  assert (Hd : returned w (getPRDiff prURL) = Some (Err (ErrRunningGh cause)))
    by (unfold returned; rewrite E; reflexivity).
  destruct (main_stdout_diff_fails w prURL _ (long_url_not_empty prURL Hlen) Hd)
    as [Ht _].
  assert (Ht' : trace w (main (Some prURL)) =
       trace w loadConfig
       ++ [Called (CmdOutput (diff_command prURL));
           Called (Println ["Error fetching PR diff:"; Error (ErrRunningGh cause)])])
    by (rewrite Ht; unfold trace at 2; rewrite E; reflexivity).
  repeat split; try assumption.
  rewrite Ht', requests_app.
  destruct (loadConfig_quiet w) as (_ & _ & _ & Hr & _). rewrite Hr. reflexivity.
Qed.

Lemma C6_witness :
  7 <= List.length (strings.Split Sample.pr_url "/")
  /\ exec_Output Sample.gh_fails (diff_command Sample.pr_url) = ("", Some "exit status 1")
  /\ returned Sample.gh_fails (getPRDiff Sample.pr_url)
     = Some (Err (ErrRunningGh "exit status 1"))
  /\ kind_of (ErrRunningGh "exit status 1") = DiffFetchError
  /\ Error (ErrRunningGh "exit status 1") = "error running gh pr diff: exit status 1"
  /\ trace Sample.gh_fails (main (Some Sample.pr_url)) =
       trace Sample.gh_fails loadConfig
       ++ [Called (CmdOutput ["gh"; "pr"; "diff"; "-R"; "orgX/repoY"; "123"]);
           Called (Println ["Error fetching PR diff:";
                            "error running gh pr diff: exit status 1"])]
  /\ requests (trace Sample.gh_fails (main (Some Sample.pr_url))) = [].
Proof.
  split; [vm_compute; lia | split; [reflexivity |]].
  exact (C6_diff_command_failure Sample.gh_fails Sample.pr_url "" "exit status 1"
           ltac:(vm_compute; lia) eq_refl).
Defined.

(** ** Claims about the answer of the service *)

(** The first choice of a completion is returned and printed as it is. *)
Lemma first_choice_printed (w : World) (prURL prDiff body : string) (cfg : FileConfig.t)
      (lerr : option error) (resp : Response) (r : OpenAIReponse.t)
      (c : OpenAIReponse.choice) (rest : list OpenAIReponse.choice) :
  7 <= List.length (strings.Split prURL "/") ->
  returned w loadConfig = Some (cfg, lerr) ->
  exec_Output w (diff_command prURL) = (prDiff, None) ->
  http_NewRequest w "POST" openAICompletionURL
    (json.encode_OpenAIRequest (buildRequest prDiff)) = None ->
  client_Do w (newRequest (json.encode_OpenAIRequest (buildRequest prDiff))
                          (FileConfig.Key (FileConfig.ApiKey cfg))) = Ok resp ->
  io_ReadAll w (RespBody resp) = (body, None) ->
  json_Unmarshal w body = Ok r ->
  OpenAIReponse.Choices r = c :: rest ->
  returned w (generateFinalConsideration prDiff (FileConfig.Key (FileConfig.ApiKey cfg)))
    = Some (Ok (OpenAIReponse.Content (OpenAIReponse.Message c)))
  /\ stdout (trace w (main (Some prURL))) =
       (OpenAIReponse.Content (OpenAIReponse.Message c) ++ String newline "")%string.
Proof.
  intros Hlen Hc Hgh H1 H2 H3 H4 H5.
  assert (Hd : returned w (getPRDiff prURL) = Some (Ok prDiff))
    by (unfold returned; rewrite (getPRDiff_run w prURL Hlen), Hgh; reflexivity).
  assert (Hf : returned w (generateFinalConsideration prDiff
                             (FileConfig.Key (FileConfig.ApiKey cfg)))
               = Some (Ok (OpenAIReponse.Content (OpenAIReponse.Message c))))
    by (unfold returned;
        rewrite (generate_first_choice w prDiff _ resp body r c rest H1 H2 H3 H4 H5);
        reflexivity).
  split; [exact Hf |].
  destruct (main_stdout_diff_ok w prURL prDiff cfg lerr _
              (long_url_not_empty prURL Hlen) Hc Hd Hf) as [_ Hs].
  rewrite Hs. unfold Sprintln. simpl String.concat. reflexivity.
Qed.

(** C4.  When the service answers with a completion of exactly one choice,
    the generator sends its one request, reads and decodes the answer, closes
    the body and returns the message content of that choice exactly as it
    is, whatever the content: nothing is trimmed, reformatted or cut.  The
    program prints that content followed by one newline, by its last call,
    and exits with status 0.  In particular, for the content "LGTM", a
    newline, "Approved: true" the output is that text and a newline. *)
Theorem C4_review_printed_verbatim (w : World) (prURL prDiff body : string)
        (cfg : FileConfig.t) (lerr : option error) (resp : Response)
        (r : OpenAIReponse.t) (c : OpenAIReponse.choice) :
  7 <= List.length (strings.Split prURL "/") ->
  returned w loadConfig = Some (cfg, lerr) ->
  exec_Output w (diff_command prURL) = (prDiff, None) ->
  http_NewRequest w "POST" openAICompletionURL
    (json.encode_OpenAIRequest (buildRequest prDiff)) = None ->
  client_Do w (newRequest (json.encode_OpenAIRequest (buildRequest prDiff))
                          (FileConfig.Key (FileConfig.ApiKey cfg))) = Ok resp ->
  io_ReadAll w (RespBody resp) = (body, None) ->
  json_Unmarshal w body = Ok r ->
  OpenAIReponse.Choices r = [c] ->
  exec w (generateFinalConsideration prDiff (FileConfig.Key (FileConfig.ApiKey cfg)))
    = ([Called (HttpNewRequest "POST" openAICompletionURL
                  (json.encode_OpenAIRequest (buildRequest prDiff)));
        Called (ClientDo (newRequest (json.encode_OpenAIRequest (buildRequest prDiff))
                                     (FileConfig.Key (FileConfig.ApiKey cfg))));
        Called (ReadAll (RespBody resp));
        Called (JsonUnmarshal body);
        Called (BodyClose (RespBody resp))],
       Some (Ok (OpenAIReponse.Content (OpenAIReponse.Message c))))
  /\ stdout (trace w (main (Some prURL)))
     = (OpenAIReponse.Content (OpenAIReponse.Message c) ++ String newline "")%string
  /\ (exists before,
        trace w (main (Some prURL))
        = before ++ [Called (Println [OpenAIReponse.Content (OpenAIReponse.Message c)])])
  /\ exit_code w (main (Some prURL)) = 0%Z
  /\ (OpenAIReponse.Content (OpenAIReponse.Message c)
      = ("LGTM" ++ String newline "Approved: true")%string ->
      returned w (generateFinalConsideration prDiff
                    (FileConfig.Key (FileConfig.ApiKey cfg)))
      = Some (Ok ("LGTM" ++ String newline "Approved: true")%string)
      /\ stdout (trace w (main (Some prURL)))
         = ("LGTM" ++ String newline "Approved: true" ++ String newline "")%string).
Proof.
  intros Hlen Hc Hgh H1 H2 H3 H4 H5.
  pose proof (generate_first_choice w prDiff (FileConfig.Key (FileConfig.ApiKey cfg))
                resp body r c [] H1 H2 H3 H4 H5) as Hrun.
  destruct (first_choice_printed w prURL prDiff body cfg lerr resp r c []
              Hlen Hc Hgh H1 H2 H3 H4 H5) as [Hf Hs].
  assert (Hd : returned w (getPRDiff prURL) = Some (Ok prDiff))
    by (unfold returned; rewrite (getPRDiff_run w prURL Hlen), Hgh; reflexivity).
  destruct (main_stdout_diff_ok w prURL prDiff cfg lerr _
              (long_url_not_empty prURL Hlen) Hc Hd Hf) as [Ht _].
  split; [exact Hrun |]. split; [exact Hs |].
  split; [eexists; rewrite Ht, !app_assoc; reflexivity |].
  split; [apply main_exit_zero |].
  intros H6. rewrite H6 in Hf, Hs. split; [exact Hf | exact Hs].
Qed.

Lemma C4_witness :
  exec Sample.good (generateFinalConsideration "diff --git a/x b/x" "sk-test")
    = ([Called (HttpNewRequest "POST" openAICompletionURL
                  (json.encode_OpenAIRequest (buildRequest "diff --git a/x b/x")));
        Called (ClientDo (newRequest
                            (json.encode_OpenAIRequest (buildRequest "diff --git a/x b/x"))
                            "sk-test"));
        Called (ReadAll 1);
        Called (JsonUnmarshal "{}");
        Called (BodyClose 1)],
       Some (Ok ("LGTM" ++ String newline "Approved: true")%string))
  /\ stdout (trace Sample.good (main (Some Sample.pr_url)))
     = ("LGTM" ++ String newline "Approved: true" ++ String newline "")%string
  /\ (exists before,
        trace Sample.good (main (Some Sample.pr_url))
        = before ++ [Called (Println [("LGTM" ++ String newline "Approved: true")%string])])
  /\ exit_code Sample.good (main (Some Sample.pr_url)) = 0%Z
  /\ (("LGTM" ++ String newline "Approved: true")%string
      = ("LGTM" ++ String newline "Approved: true")%string ->
      returned Sample.good (generateFinalConsideration "diff --git a/x b/x" "sk-test")
      = Some (Ok ("LGTM" ++ String newline "Approved: true")%string)
      /\ stdout (trace Sample.good (main (Some Sample.pr_url)))
         = ("LGTM" ++ String newline "Approved: true" ++ String newline "")%string).
Proof.
  exact (C4_review_printed_verbatim Sample.good Sample.pr_url "diff --git a/x b/x" "{}"
           Sample.config None (mkResponse 1)
           (Sample.completion [Sample.choice Sample.review]) (Sample.choice Sample.review)
           ltac:(vm_compute; lia) eq_refl eq_refl eq_refl eq_refl eq_refl eq_refl
           eq_refl).
Defined.

(** C5.  When the deserialized answer has no choice, the generator fails
    with the empty-response error, and the only thing the program prints is
    the line reporting that error: no review text. *)
Theorem C5_empty_choices (w : World) (prURL prDiff body : string)
        (cfg : FileConfig.t) (lerr : option error) (resp : Response)
        (r : OpenAIReponse.t) :
  7 <= List.length (strings.Split prURL "/") ->
  returned w loadConfig = Some (cfg, lerr) ->
  exec_Output w (diff_command prURL) = (prDiff, None) ->
  http_NewRequest w "POST" openAICompletionURL
    (json.encode_OpenAIRequest (buildRequest prDiff)) = None ->
  client_Do w (newRequest (json.encode_OpenAIRequest (buildRequest prDiff))
                          (FileConfig.Key (FileConfig.ApiKey cfg))) = Ok resp ->
  io_ReadAll w (RespBody resp) = (body, None) ->
  json_Unmarshal w body = Ok r ->
  OpenAIReponse.Choices r = [] ->
  returned w (generateFinalConsideration prDiff (FileConfig.Key (FileConfig.ApiKey cfg)))
    = Some (Err ErrNoResponse)
  /\ kind_of ErrNoResponse = EmptyResponseError
  /\ stdout (trace w (main (Some prURL))) =
       Sprintln ["Error generating final consideration:";
                 "no response received from OpenAI API"].
Proof.
  intros Hlen Hc Hgh H1 H2 H3 H4 H5.
  assert (Hd : returned w (getPRDiff prURL) = Some (Ok prDiff))
    by (unfold returned; rewrite (getPRDiff_run w prURL Hlen), Hgh; reflexivity).
  assert (Hf : returned w (generateFinalConsideration prDiff
                             (FileConfig.Key (FileConfig.ApiKey cfg)))
               = Some (Err ErrNoResponse))
    by (unfold returned;
        rewrite (generate_no_choice w prDiff _ resp body r H1 H2 H3 H4 H5);
        reflexivity).
  split; [exact Hf | split; [reflexivity |]].
  destruct (main_stdout_diff_ok w prURL prDiff cfg lerr _
              (long_url_not_empty prURL Hlen) Hc Hd Hf) as [_ Hs].
  exact Hs.
Qed.

Lemma C5_witness :
  returned Sample.empty_choices
    (generateFinalConsideration "diff --git a/x b/x" "sk-test")
    = Some (Err ErrNoResponse)
  /\ kind_of ErrNoResponse = EmptyResponseError
  /\ stdout (trace Sample.empty_choices (main (Some Sample.pr_url))) =
       Sprintln ["Error generating final consideration:";
                 "no response received from OpenAI API"].
Proof.
  exact (C5_empty_choices Sample.empty_choices Sample.pr_url "diff --git a/x b/x" "{}"
           Sample.config None (mkResponse 1) (Sample.completion [])
           ltac:(vm_compute; lia) eq_refl eq_refl eq_refl eq_refl eq_refl eq_refl
           eq_refl).
Defined.

(** ** Claims about the flag and the configuration *)

(** C9, as stated, fails: without the flag the program still loads the
    configuration before it prints the usage line, so it does perform work.
    In a world where the configuration file exists it asks for the current
    user, opens the file, decodes it and closes it. *)
Lemma C9_counterexample :
  trace Sample.good (main None) =
    [Called UserCurrent;
     Called (OsOpen "/home/dev/.config/openai/config.toml");
     Called (TomlDecode "/home/dev/.config/openai/config.toml" FileConfig.zero);
     Called (FileClose "/home/dev/.config/openai/config.toml");
     Called (Println ["Usage: pr_review_cli -pr <PR_URL>"])]
  /\ trace Sample.good (main None) <> [Called (Println ["Usage: pr_review_cli -pr <PR_URL>"])].
Proof.
  split; [reflexivity |].
  intros H. apply (f_equal (@List.length Event)) in H. discriminate H.
Qed.

(** C9, amended.  When the flag [-pr] is absent or empty, the program loads
    the configuration (calls on the user database and the configuration file
    only), then prints the usage line and nothing else, and exits with
    status 0; it starts no process and sends no request. *)
Theorem C9_usage_after_config_load (w : World) (pr : option string) :
  pr = None \/ pr = Some EmptyString ->
  trace w (main pr) = trace w loadConfig ++ [Called (Println [usage])]
  /\ forallb is_config_call (trace w loadConfig) = true
  /\ stdout (trace w (main pr)) =
       ("Usage: pr_review_cli -pr <PR_URL>" ++ String newline "")%string
  /\ processes (trace w (main pr)) = []
  /\ requests (trace w (main pr)) = []
  /\ exit_code w (main pr) = 0%Z.
Proof.
  intros Hpr.
  assert (E : match pr with Some v => v | None => EmptyString end = EmptyString)
    by (destruct Hpr; subst pr; reflexivity).
  destruct (main_no_flag w pr E) as [Ht _].
  destruct (loadConfig_quiet w) as (_ & Hcfg & Hp & Hr & Hs).
  rewrite Ht, stdout_app, processes_app, requests_app, Hp, Hr, Hs.
  repeat split; try assumption; try reflexivity.
  apply main_exit_zero.
Qed.

Lemma C9_witness :
  trace Sample.good (main None) = trace Sample.good loadConfig ++ [Called (Println [usage])]
  /\ forallb is_config_call (trace Sample.good loadConfig) = true
  /\ stdout (trace Sample.good (main None)) =
       ("Usage: pr_review_cli -pr <PR_URL>" ++ String newline "")%string
  /\ processes (trace Sample.good (main None)) = []
  /\ requests (trace Sample.good (main None)) = []
  /\ exit_code Sample.good (main None) = 0%Z.
Proof.
  exact (C9_usage_after_config_load Sample.good None (or_introl eq_refl)).
Defined.

(** C7, as stated, fails for a parse failure: the configuration that
    [loadConfig] returns beside the error is the struct as the decoder left
    it, not the zero value.  With a file whose key is read before the line
    that does not parse, the request carries that key. *)
Lemma C7_counterexample :
  returned Sample.half_parsed loadConfig =
    Some (Sample.config, Some (ErrParsingToml "toml: expected character ="))
  /\ FileConfig.Key (FileConfig.ApiKey Sample.config) <> EmptyString
  /\ map Header (requests (trace Sample.half_parsed (main (Some Sample.pr_url)))) =
       [[("Content-Type", "application/json"); ("Authorization", "Bearer sk-test")]].
Proof.
  split; [reflexivity | split; [discriminate | vm_compute; reflexivity]].
Qed.

(** C7, amended.  When loading the configuration fails, the program goes
    on: given a URL, the run is the load followed by the stages, which get
    the key of the configuration that came back with the error; the error
    itself is never read.  That configuration is the zero value when the
    user or the file could not be had, and what the decoder stored when the
    parse failed. *)
Theorem C7_config_failure_ignored (w : World) (prURL : string) (cfg : FileConfig.t)
        (e : error) :
  String.eqb prURL "" = false ->
  returned w loadConfig = Some (cfg, Some e) ->
  kind_of e = ConfigError
  /\ trace w (main (Some prURL)) =
       trace w loadConfig ++ trace w (pipeline prURL (FileConfig.Key (FileConfig.ApiKey cfg)))
  /\ stdout (trace w (main (Some prURL))) =
       stdout (trace w (pipeline prURL (FileConfig.Key (FileConfig.ApiKey cfg))))
  /\ exit_code w (main (Some prURL)) = 0%Z
  /\ match e with
     | ErrParsingToml _ => exists file, cfg = fst (toml_Decode w file FileConfig.zero)
     | _ => cfg = FileConfig.zero
     end.
Proof.
  intros Hpr Hc.
  destruct (main_with_flag w prURL cfg (Some e) Hpr Hc) as [Ht _].
  destruct (loadConfig_quiet w) as (_ & _ & _ & _ & Hs).
  assert (Hshape : kind_of e = ConfigError
                   /\ match e with
                      | ErrParsingToml _ =>
                          exists file, cfg = fst (toml_Decode w file FileConfig.zero)
                      | _ => cfg = FileConfig.zero
                      end).
  { unfold returned in Hc.
    destruct (loadConfig_cases w)
      as [(c & _ & E) | [(u & c & _ & _ & E) | (u & f & _ & _ & E)]];
      rewrite E in Hc; cbn [snd] in Hc; inversion Hc; subst.
    - split; reflexivity.
    - split; reflexivity.
    - destruct (snd (toml_Decode w f FileConfig.zero)) as [c |]; [| discriminate].
      match goal with H : Some _ = Some e |- _ => inversion H; subst end.
      split; [reflexivity | exists f; reflexivity]. }
  destruct Hshape as [Hk Hcfg].
  repeat split; try assumption.
  - rewrite Ht, stdout_app, Hs. reflexivity.
  - apply main_exit_zero.
Qed.

Lemma C7_witness :
  kind_of ErrCurrentUser = ConfigError
  /\ trace Sample.no_user (main (Some Sample.pr_url)) =
       trace Sample.no_user loadConfig ++ trace Sample.no_user (pipeline Sample.pr_url "")
  /\ stdout (trace Sample.no_user (main (Some Sample.pr_url))) =
       stdout (trace Sample.no_user (pipeline Sample.pr_url ""))
  /\ exit_code Sample.no_user (main (Some Sample.pr_url)) = 0%Z
  /\ FileConfig.zero = FileConfig.zero.
Proof.
  exact (C7_config_failure_ignored Sample.no_user Sample.pr_url FileConfig.zero
           ErrCurrentUser eq_refl eq_refl).
Defined.

(** ** The failure taxonomy *)

Lemma getPRDiff_errors (w : World) (prURL : string) (e : error) :
  returned w (getPRDiff prURL) = Some (Err e) ->
  e = ErrInvalidPRURL \/ exists cause, e = ErrRunningGh cause.
Proof.
  intros H.
  destruct (Nat.lt_ge_cases (List.length (strings.Split prURL "/")) 7) as [Hlen | Hlen].
  - rewrite (getPRDiff_short prURL Hlen) in H. inversion H. left. reflexivity.
  - unfold returned in H. rewrite (getPRDiff_run w prURL Hlen) in H. cbn [snd] in H.
    destruct (snd (exec_Output w (diff_command prURL))) as [c |]; inversion H.
    right. exists c. reflexivity.
Qed.

Lemma generate_errors (w : World) (prDiff apiKey : string) (e : error) :
  returned w (generateFinalConsideration prDiff apiKey) = Some (Err e) ->
  (exists cause, e = ErrCreatingRequest cause)
  \/ (exists cause, e = ErrMakingRequest cause)
  \/ (exists cause, e = ErrReadingResponse cause)
  \/ (exists cause, e = ErrUnmarshal cause)
  \/ e = ErrNoResponse.
Proof.
  unfold returned.
  set (reqBody := json.encode_OpenAIRequest (buildRequest prDiff)).
  set (req := newRequest reqBody apiKey).
  destruct (http_NewRequest w "POST" openAICompletionURL reqBody) as [c |] eqn:H1.
  { rewrite (generate_request_rejected w prDiff apiKey c H1). cbn [snd].
    intros H; inversion H. eauto. }
  destruct (client_Do w req) as [resp | c] eqn:H2.
  2: { rewrite (generate_request_fails w prDiff apiKey c H1 H2). cbn [snd].
       intros H; inversion H. eauto. }
  destruct (io_ReadAll w (RespBody resp)) as [body [c |]] eqn:H3.
  { rewrite (generate_read_fails w prDiff apiKey resp body c H1 H2 H3). cbn [snd].
    intros H; inversion H. eauto 6. }
  destruct (json_Unmarshal w body) as [r | c] eqn:H4.
  2: { rewrite (generate_unmarshal_fails w prDiff apiKey resp body c H1 H2 H3 H4).
       cbn [snd]. intros H; inversion H. eauto 6. }
  destruct (OpenAIReponse.Choices r) as [| c rest] eqn:H5.
  - rewrite (generate_no_choice w prDiff apiKey resp body r H1 H2 H3 H4 H5). cbn [snd].
    intros H; inversion H. tauto.
  - rewrite (generate_first_choice w prDiff apiKey resp body r c rest H1 H2 H3 H4 H5).
    cbn [snd]. intros H; inversion H.
Qed.

(** C8, as stated, fails for the configuration error: it neither ends the
    run nor reaches the user.  When the current user cannot be found,
    [loadConfig] returns its error, and the run goes on to print a review and
    nothing about the error. *)
Lemma C8_counterexample :
  returned Sample.no_user loadConfig = Some (FileConfig.zero, Some ErrCurrentUser)
  /\ kind_of ErrCurrentUser = ConfigError
  /\ stdout (trace Sample.no_user (main (Some Sample.pr_url))) =
       ("LGTM" ++ String newline "Approved: true" ++ String newline "")%string
  /\ map Header (requests (trace Sample.no_user (main (Some Sample.pr_url)))) =
       [[("Content-Type", "application/json"); ("Authorization", "Bearer ")]].
Proof.
  repeat split; vm_compute; reflexivity.
Qed.

(** C8, amended.  An error returned by the diff stage or by the review
    stage is of one of the seven kinds other than the configuration error;
    the run ends with it: the last call of the run prints the words of the
    stage, a space, the message of the error and a newline, which is all the
    run prints and is one line when the wrapped library error is, and the
    exit status is 0. *)
Theorem C8_stage_failures_terminal (w : World) (prURL : string) (cfg : FileConfig.t)
        (lerr : option error) (e : error) :
  String.eqb prURL "" = false ->
  returned w loadConfig = Some (cfg, lerr) ->
  returned w (getPRDiff prURL) = Some (Err e)
  \/ (exists prDiff,
        returned w (getPRDiff prURL) = Some (Ok prDiff)
        /\ returned w (generateFinalConsideration prDiff
                         (FileConfig.Key (FileConfig.ApiKey cfg))) = Some (Err e)) ->
  (forall c, cause_of e = Some c -> one_line c = true) ->
  kind_of e <> ConfigError
  /\ exists context events,
       context_of (kind_of e) = Some context
       /\ trace w (main (Some prURL)) = events ++ [Called (Println [context; Error e])]
       /\ stdout events = EmptyString
       /\ stdout (trace w (main (Some prURL))) =
            (context ++ " " ++ Error e ++ String newline "")%string
       /\ one_line (context ++ " " ++ Error e) = true
       /\ exit_code w (main (Some prURL)) = 0%Z.
Proof.
  intros Hpr Hc Hfail Hline.
  pose proof (Error_one_line e Hline) as Hmsg.
  destruct (loadConfig_quiet w) as (_ & _ & _ & _ & Hs).
  destruct Hfail as [Hd | (prDiff & Hd & Hf)].
  - destruct (main_stdout_diff_fails w prURL e Hpr Hd) as [Ht Hout].
    assert (Hk : context_of (kind_of e) = Some "Error fetching PR diff:"
                 /\ kind_of e <> ConfigError).
    { destruct (getPRDiff_errors w prURL e Hd) as [-> | (c & ->)];
        split; try reflexivity; discriminate. }
    destruct Hk as [Hk Hn]. split; [exact Hn |].
    exists "Error fetching PR diff:", (trace w loadConfig ++ trace w (getPRDiff prURL)).
    repeat split.
    + exact Hk.
    + rewrite Ht, app_assoc. reflexivity.
    + rewrite stdout_app, Hs, (proj1 (getPRDiff_quiet w prURL)). reflexivity.
    + rewrite Hout. unfold Sprintln. cbn [String.concat].
      rewrite !string_app_assoc. reflexivity.
    + rewrite !one_line_app, Hmsg. reflexivity.
    + apply main_exit_zero.
  - destruct (main_stdout_diff_ok w prURL prDiff cfg lerr (Err e) Hpr Hc Hd Hf)
      as [Ht Hout].
    assert (Hk : context_of (kind_of e) = Some "Error generating final consideration:"
                 /\ kind_of e <> ConfigError).
    { destruct (generate_errors w prDiff _ e Hf)
        as [(c & ->) | [(c & ->) | [(c & ->) | [(c & ->) | ->]]]];
        split; try reflexivity; discriminate. }
    destruct Hk as [Hk Hn]. split; [exact Hn |].
    exists "Error generating final consideration:",
      (trace w loadConfig ++ trace w (getPRDiff prURL)
       ++ trace w (generateFinalConsideration prDiff
                     (FileConfig.Key (FileConfig.ApiKey cfg)))).
    repeat split.
    + exact Hk.
    + rewrite Ht, <- !app_assoc. reflexivity.
    + rewrite !stdout_app, Hs, (proj1 (getPRDiff_quiet w prURL)),
        (proj1 (generate_quiet w prDiff _)). reflexivity.
    + rewrite Hout. unfold Sprintln. cbn [String.concat].
      rewrite !string_app_assoc. reflexivity.
    + rewrite !one_line_app, Hmsg. reflexivity.
    + apply main_exit_zero.
Qed.

Lemma C8_witness :
  kind_of (ErrRunningGh "exit status 1") <> ConfigError
  /\ exists context events,
       context_of (kind_of (ErrRunningGh "exit status 1")) = Some context
       /\ trace Sample.gh_fails (main (Some Sample.pr_url)) =
            events ++ [Called (Println [context; Error (ErrRunningGh "exit status 1")])]
       /\ stdout events = EmptyString
       /\ stdout (trace Sample.gh_fails (main (Some Sample.pr_url))) =
            (context ++ " " ++ Error (ErrRunningGh "exit status 1")
             ++ String newline "")%string
       /\ one_line (context ++ " " ++ Error (ErrRunningGh "exit status 1")) = true
       /\ exit_code Sample.gh_fails (main (Some Sample.pr_url)) = 0%Z.
Proof.
  apply (C8_stage_failures_terminal Sample.gh_fails Sample.pr_url Sample.config None
           (ErrRunningGh "exit status 1") eq_refl eq_refl (or_introl eq_refl)).
  intros c H. inversion H. reflexivity.
Defined.

(** ** Bit arithmetic of the UTF-8 decoder *)

Section Bits.
Local Open Scope N_scope.

(** Bits put above the [n] low bits of a number below [2 ^ n] add up. *)
Lemma lor_shiftl_add (a b n : N) :
  b < 2 ^ n -> N.lor (N.shiftl a n) b = a * 2 ^ n + b.
Proof.
  intros Hb.
  assert (Hd : N.land (N.shiftl a n) b = 0).
  { apply N.bits_inj_0. intros m. rewrite N.land_spec.
    destruct (N.lt_ge_cases m n) as [Hm | Hm].
    - rewrite N.shiftl_spec_low by exact Hm. reflexivity.
    - rewrite andb_comm.
      replace (N.testbit b m) with false; [reflexivity |].
      symmetry. rewrite <- (N.mod_small b (2 ^ n)) by exact Hb.
      apply N.mod_pow2_bits_high. exact Hm. }
  rewrite <- (N.lxor_lor _ _ Hd), <- (N.add_nocarry_lxor _ _ Hd), N.shiftl_mul_pow2.
  reflexivity.
Qed.

(** The rune of a sequence of two, three and four bytes, as arithmetic on
    the bytes. *)
Lemma pack2 (b0 b1 : N) :
  N.lor (N.shiftl (N.land b0 utf8.mask2) 6) (N.land b1 utf8.maskx)
  = (b0 mod 32) * 64 + b1 mod 64.
Proof.
  change utf8.mask2 with (N.ones 5). change utf8.maskx with (N.ones 6).
  rewrite !N.land_ones.
  rewrite lor_shiftl_add by (apply N.mod_lt; discriminate).
  reflexivity.
Qed.

Lemma lor_shiftl_shiftl (x y : N) (n : N) :
  y < 2 ^ n ->
  N.lor (N.shiftl x (n + n)) (N.shiftl y n) = N.shiftl (x * 2 ^ n + y) n.
Proof.
  intros Hy.
  rewrite <- N.shiftl_shiftl, <- N.shiftl_lor, lor_shiftl_add by exact Hy.
  reflexivity.
Qed.

Lemma pack3 (b0 b1 b2 : N) :
  N.lor (N.lor (N.shiftl (N.land b0 utf8.mask3) 12) (N.shiftl (N.land b1 utf8.maskx) 6))
        (N.land b2 utf8.maskx)
  = (b0 mod 16) * 4096 + (b1 mod 64) * 64 + b2 mod 64.
Proof.
  change utf8.mask3 with (N.ones 4). change utf8.maskx with (N.ones 6).
  rewrite !N.land_ones.
  assert (H1 : b1 mod 2 ^ 6 < 2 ^ 6) by (apply N.mod_lt; discriminate).
  assert (H2 : b2 mod 2 ^ 6 < 2 ^ 6) by (apply N.mod_lt; discriminate).
  change 12 with (6 + 6).
  rewrite (lor_shiftl_shiftl _ _ 6 H1), (lor_shiftl_add _ _ 6 H2).
  change (2 ^ 6) with 64. change (2 ^ 4) with 16. lia.
Qed.

Lemma pack4 (b0 b1 b2 b3 : N) :
  N.lor (N.lor (N.lor (N.shiftl (N.land b0 utf8.mask4) 18)
                      (N.shiftl (N.land b1 utf8.maskx) 12))
               (N.shiftl (N.land b2 utf8.maskx) 6))
        (N.land b3 utf8.maskx)
  = (b0 mod 8) * 262144 + (b1 mod 64) * 4096 + (b2 mod 64) * 64 + b3 mod 64.
Proof.
  change utf8.mask4 with (N.ones 3). change utf8.maskx with (N.ones 6).
  rewrite !N.land_ones.
  assert (H1 : b1 mod 2 ^ 6 < 2 ^ 6) by (apply N.mod_lt; discriminate).
  assert (H2 : b2 mod 2 ^ 6 < 2 ^ 6) by (apply N.mod_lt; discriminate).
  assert (H3 : b3 mod 2 ^ 6 < 2 ^ 6) by (apply N.mod_lt; discriminate).
  change 18 with (6 + 12).
  rewrite <- (N.shiftl_shiftl (b0 mod 2 ^ 3) 6 12), <- N.shiftl_lor,
    (lor_shiftl_add _ _ 6 H1).
  change 12 with (6 + 6).
  rewrite (lor_shiftl_shiftl _ _ 6 H2), (lor_shiftl_add _ _ 6 H3).
  change (2 ^ 6) with 64. change (2 ^ 3) with 8. lia.
Qed.

End Bits.

(** ** The shape of a decoded sequence *)

Section FirstByte.
Local Open Scope N_scope.

(** The classes of a first byte in the table [first], each with the bytes
    it holds. *)
Lemma first_cases (b : N) :
  (b < 0x80 /\ utf8.first b = utf8.as_)
  \/ (0x80 <= b /\ utf8.first b = utf8.xx)
  \/ (0xC2 <= b < 0xE0 /\ utf8.first b = utf8.s1)
  \/ (b = 0xE0 /\ utf8.first b = utf8.s2)
  \/ (0xE1 <= b < 0xF0 /\ utf8.first b = utf8.s3)
  \/ (b = 0xED /\ utf8.first b = utf8.s4)
  \/ (b = 0xF0 /\ utf8.first b = utf8.s5)
  \/ (0xF1 <= b < 0xF4 /\ utf8.first b = utf8.s6)
  \/ (b = 0xF4 /\ utf8.first b = utf8.s7).
Proof.
  unfold utf8.first.
  repeat match goal with
         | |- context [?x <? ?y] => destruct (N.ltb_spec x y)
         | |- context [?x =? ?y] => destruct (N.eqb_spec x y)
         end; intuition lia.
Qed.

(** A byte is the character of its number. *)
Lemma byte_eq (c : ascii) (n : N) : byte_of c = n -> c = ascii_of_N n.
Proof. intros <-. symmetry. apply ascii_N_embedding. Qed.

End FirstByte.

(** One class of first bytes: the width and the bounds of the second
    byte it fixes. *)
Ltac class_in H x n rng :=
  change (N.leb utf8.as_ x) with false in H;
  change (N.to_nat (N.land x 7)) with n in H;
  change (utf8.acceptRanges (N.shiftr x 4)) with rng in H.

Ltac class_goal x n rng :=
  change (N.leb utf8.as_ x) with false;
  change (N.to_nat (N.land x 7)) with n;
  change (utf8.acceptRanges (N.shiftr x 4)) with rng.

(** The next byte of the text, which has to be there. *)
Ltac next_byte c :=
  match goal with
  | Hdec : _ = (_, _), Hok : _ = false |- context [?t] =>
      is_var t;
      match type of t with
      | string =>
          destruct t as [| c t];
          cbn [substring String.length Nat.ltb Nat.leb fst snd] in Hdec;
          [inversion Hdec; subst; discriminate Hok |]
      end
  end.

(** The bounds of a byte, kept as the two comparisons and as two
    inequalities. *)
Ltac check_range :=
  match goal with
  | Hdec : (if orb (N.ltb ?b ?lo) (N.ltb ?hi ?b) then _ else _) = _, Hok : _ = false |- _ =>
      let Hlo := fresh "Hlo" in
      let Hhi := fresh "Hhi" in
      destruct (N.ltb b lo) eqn:Hlo;
      [cbn [orb] in Hdec; inversion Hdec; subst; discriminate Hok |];
      destruct (N.ltb hi b) eqn:Hhi;
      [cbn [orb] in Hdec; inversion Hdec; subst; discriminate Hok |];
      cbn [orb] in Hdec;
      let Lo := fresh "Lo" in
      let Hi := fresh "Hi" in
      pose proof (proj1 (N.ltb_ge _ _) Hlo) as Lo;
      pose proof (proj1 (N.ltb_ge _ _) Hhi) as Hi;
      unfold utf8.locb, utf8.hicb in Lo, Hi
  end.

(** Quotient and remainder by a constant, as two numbers [lia] can use. *)
Ltac mod_facts b k :=
  pose proof (N.div_mod' b k);
  pose proof (N.mod_lt b k ltac:(discriminate));
  generalize dependent (N.modulo b k); generalize dependent (N.div b k); intros.

(** The bytes after the first are not ASCII. *)
Ltac above :=
  cbn [utf8.above_ascii]; unfold utf8.RuneSelf; rewrite andb_true_r;
  repeat (apply andb_true_iff; split); apply N.leb_le; lia.

(** Decoding again with other text after the sequence. *)
Ltac decode_again E x n rng :=
  let X := fresh "X" in
  intros X; cbn [append substring utf8.UTFMax];
  unfold utf8.DecodeRuneInString; cbv zeta; rewrite E; class_goal x n rng;
  cbn [String.length Nat.ltb Nat.leb fst snd];
  repeat match goal with
         | H : N.ltb _ _ = false |- _ => rewrite H
         end;
  cbn [orb]; reflexivity.

Section Decode.
Local Open Scope N_scope.

(** A first byte that is not ASCII and that [DecodeRuneInString] accepts
    starts a sequence of [size] bytes: the [size - 1] bytes after it are
    there and are not ASCII, they alone decide the outcome, and the rune
    is U+2028 or U+2029 only for the three bytes that encode it. *)
Lemma decode_shape (c0 : ascii) (t : string) (r : N) (size : nat) :
  (byte_of c0 <? utf8.RuneSelf) = false ->
  utf8.DecodeRuneInString (substring 0 utf8.UTFMax (String c0 t)) = (r, size) ->
  ((r =? utf8.RuneError) && (size =? 1)%nat) = false ->
  exists cont tail,
    t = (cont ++ tail)%string
    /\ String.length cont = (size - 1)%nat
    /\ utf8.above_ascii cont = true
    /\ (forall X, utf8.DecodeRuneInString
                    (substring 0 utf8.UTFMax (String c0 (cont ++ X))) = (r, size))
    /\ (((r =? 0x2028) || (r =? 0x2029)) = true -> Inspect.encode_rune r = String c0 cont).
Proof.
  intros Hb0 Hdec Hok.
  apply N.ltb_ge in Hb0. unfold utf8.RuneSelf in Hb0.
  cbn [substring utf8.UTFMax] in Hdec.
  unfold utf8.DecodeRuneInString in Hdec. cbv zeta in Hdec.
  destruct (first_cases (byte_of c0))
    as [[H _] | [[_ E] | [[H E] | [[H E] | [[H E] | [[H E] | [[H E] | [[H E] | [H E]]]]]]]]];
    try rewrite E in Hdec.
  - lia.
  - change (utf8.as_ <=? utf8.xx) with true in Hdec.
    change (utf8.xx =? utf8.as_) with false in Hdec.
    inversion Hdec; subst. discriminate Hok.
  - class_in Hdec utf8.s1 2%nat (utf8.locb, utf8.hicb).
    next_byte c1. check_range.
    inversion Hdec; subst r size. clear Hdec.
    exists (String c1 EmptyString), t. split; [reflexivity |]. split; [reflexivity |].
    split; [above |]. split; [decode_again E utf8.s1 2%nat (utf8.locb, utf8.hicb) |].
    rewrite pack2. intros Hs. exfalso.
    apply orb_true_iff in Hs. rewrite !N.eqb_eq in Hs.
    mod_facts (byte_of c0) 32. mod_facts (byte_of c1) 64. lia.
  - class_in Hdec utf8.s2 3%nat (0xA0, utf8.hicb).
    next_byte c1. next_byte c2. check_range. check_range.
    inversion Hdec; subst r size. clear Hdec.
    exists (String c1 (String c2 EmptyString)), t.
    split; [reflexivity |]. split; [reflexivity |].
    split; [above |]. split; [decode_again E utf8.s2 3%nat (0xA0, utf8.hicb) |].
    rewrite pack3. intros Hs. exfalso.
    apply orb_true_iff in Hs. rewrite !N.eqb_eq in Hs.
    mod_facts (byte_of c0) 16. mod_facts (byte_of c1) 64. mod_facts (byte_of c2) 64.
    lia.
  - class_in Hdec utf8.s3 3%nat (utf8.locb, utf8.hicb).
    next_byte c1. next_byte c2. check_range. check_range.
    inversion Hdec; subst r size. clear Hdec.
    exists (String c1 (String c2 EmptyString)), t.
    split; [reflexivity |]. split; [reflexivity |].
    split; [above |]. split; [decode_again E utf8.s3 3%nat (utf8.locb, utf8.hicb) |].
    rewrite pack3. intros Hs.
    apply orb_true_iff in Hs. rewrite !N.eqb_eq in Hs.
    destruct Hs as [Hs | Hs].
    + assert (Eb : byte_of c0 = 0xE2 /\ byte_of c1 = 0x80 /\ byte_of c2 = 0xA8).
      { mod_facts (byte_of c0) 16. mod_facts (byte_of c1) 64. mod_facts (byte_of c2) 64.
        lia. }
      rewrite Hs. destruct Eb as (E0 & E1 & E2).
      rewrite (byte_eq c0 _ E0), (byte_eq c1 _ E1), (byte_eq c2 _ E2). reflexivity.
    + assert (Eb : byte_of c0 = 0xE2 /\ byte_of c1 = 0x80 /\ byte_of c2 = 0xA9).
      { mod_facts (byte_of c0) 16. mod_facts (byte_of c1) 64. mod_facts (byte_of c2) 64.
        lia. }
      rewrite Hs. destruct Eb as (E0 & E1 & E2).
      rewrite (byte_eq c0 _ E0), (byte_eq c1 _ E1), (byte_eq c2 _ E2). reflexivity.
  - class_in Hdec utf8.s4 3%nat (utf8.locb, 0x9F).
    next_byte c1. next_byte c2. check_range. check_range.
    inversion Hdec; subst r size. clear Hdec.
    exists (String c1 (String c2 EmptyString)), t.
    split; [reflexivity |]. split; [reflexivity |].
    split; [above |]. split; [decode_again E utf8.s4 3%nat (utf8.locb, 0x9F) |].
    rewrite pack3. intros Hs. exfalso.
    apply orb_true_iff in Hs. rewrite !N.eqb_eq in Hs.
    mod_facts (byte_of c0) 16. mod_facts (byte_of c1) 64. mod_facts (byte_of c2) 64.
    lia.
  - class_in Hdec utf8.s5 4%nat (0x90, utf8.hicb).
    next_byte c1. next_byte c2. next_byte c3. check_range. check_range. check_range.
    inversion Hdec; subst r size. clear Hdec.
    exists (String c1 (String c2 (String c3 EmptyString))), t.
    split; [reflexivity |]. split; [reflexivity |].
    split; [above |]. split; [decode_again E utf8.s5 4%nat (0x90, utf8.hicb) |].
    rewrite pack4. intros Hs. exfalso.
    apply orb_true_iff in Hs. rewrite !N.eqb_eq in Hs.
    mod_facts (byte_of c0) 8. mod_facts (byte_of c1) 64. mod_facts (byte_of c2) 64.
    mod_facts (byte_of c3) 64. lia.
  - class_in Hdec utf8.s6 4%nat (utf8.locb, utf8.hicb).
    next_byte c1. next_byte c2. next_byte c3. check_range. check_range. check_range.
    inversion Hdec; subst r size. clear Hdec.
    exists (String c1 (String c2 (String c3 EmptyString))), t.
    split; [reflexivity |]. split; [reflexivity |].
    split; [above |]. split; [decode_again E utf8.s6 4%nat (utf8.locb, utf8.hicb) |].
    rewrite pack4. intros Hs. exfalso.
    apply orb_true_iff in Hs. rewrite !N.eqb_eq in Hs.
    mod_facts (byte_of c0) 8. mod_facts (byte_of c1) 64. mod_facts (byte_of c2) 64.
    mod_facts (byte_of c3) 64. lia.
  - class_in Hdec utf8.s7 4%nat (utf8.locb, 0x8F).
    next_byte c1. next_byte c2. next_byte c3. check_range. check_range. check_range.
    inversion Hdec; subst r size. clear Hdec.
    exists (String c1 (String c2 (String c3 EmptyString))), t.
    split; [reflexivity |]. split; [reflexivity |].
    split; [above |]. split; [decode_again E utf8.s7 4%nat (utf8.locb, 0x8F) |].
    rewrite pack4. intros Hs. exfalso.
    apply orb_true_iff in Hs. rewrite !N.eqb_eq in Hs.
    mod_facts (byte_of c0) 8. mod_facts (byte_of c1) 64. mod_facts (byte_of c2) 64.
    mod_facts (byte_of c3) 64. lia.
Qed.

End Decode.

(** ** Reading back what [appendString] writes *)

Section ReadBack.

Local Open Scope string_scope.

Lemma prepend_nil (r : option (string * string)) : Inspect.prepend EmptyString r = r.
Proof. destruct r as [[x rest] |]; reflexivity. Qed.

Lemma prepend_prepend (a b : string) (r : option (string * string)) :
  Inspect.prepend a (Inspect.prepend b r) = Inspect.prepend (a ++ b) r.
Proof.
  destruct r as [[x rest] |]; [| reflexivity].
  simpl. rewrite string_app_assoc. reflexivity.
Qed.

(** An escaped ASCII byte reads back as the byte. *)
Lemma string_body_escape (c : ascii) (X : string) :
  (byte_of c <? utf8.RuneSelf)%N = true ->
  Inspect.string_body (json.escape_ascii c ++ X)
  = Inspect.prepend (String c EmptyString) (Inspect.string_body X).
Proof.
  intros H.
  destruct c as [[] [] [] [] [] [] [] []];
    try (vm_compute in H; discriminate H); reflexivity.
Qed.

(** A byte that is not ASCII is read as it stands. *)
Lemma string_body_raw (c : ascii) (X : string) :
  (utf8.RuneSelf <=? byte_of c)%N = true ->
  Inspect.string_body (String c X)
  = Inspect.prepend (String c EmptyString) (Inspect.string_body X).
Proof.
  intros H. apply N.leb_le in H. unfold utf8.RuneSelf in H.
  cbn [Inspect.string_body].
  assert (Hq : Ascii.eqb c dquote = false).
  { apply Ascii.eqb_neq. intros ->. vm_compute in H. apply H. reflexivity. }
  assert (Hb : Ascii.eqb c backslash = false).
  { apply Ascii.eqb_neq. intros ->. vm_compute in H. apply H. reflexivity. }
  rewrite Hq, Hb.
  destruct (N.ltb_spec (byte_of c) 32) as [Hlt | _]; [lia | reflexivity].
Qed.

Lemma string_body_above (cont X : string) :
  utf8.above_ascii cont = true ->
  Inspect.string_body (cont ++ X) = Inspect.prepend cont (Inspect.string_body X).
Proof.
  induction cont as [| c cont IH]; intros H.
  - symmetry. apply prepend_nil.
  - cbn [utf8.above_ascii] in H. apply andb_true_iff in H. destruct H as [Hc Hrest].
    cbn [append]. rewrite (string_body_raw c _ Hc), (IH Hrest), prepend_prepend.
    reflexivity.
Qed.

(** The bytes of a sequence already entered are passed over. *)
Lemma appendString_from_pending (cont tail : string) (keep : bool) :
  json.appendString_from (cont ++ tail) (String.length cont) keep
  = ((if keep then cont else EmptyString) ++ json.appendString_from tail O keep)%string.
Proof.
  induction cont as [| c cont IH]; [destruct keep; reflexivity |].
  cbn [append String.length json.appendString_from]. rewrite IH.
  destruct keep; reflexivity.
Qed.

Lemma appendString_from_keep (s : string) (keep : bool) :
  json.appendString_from s O keep = json.appendString_from s O true.
Proof. destruct s; reflexivity. Qed.

Lemma valid_from_pending (cont tail : string) :
  utf8.valid_from (cont ++ tail) (String.length cont) = utf8.valid_from tail O.
Proof.
  induction cont as [| c cont IH]; [reflexivity |].
  cbn [append String.length utf8.valid_from]. exact IH.
Qed.

Lemma string_length_app (a b : string) :
  String.length (a ++ b) = String.length a + String.length b.
Proof. induction a as [| c a IH]; simpl; [reflexivity | rewrite IH; reflexivity]. Qed.

Lemma string_body_2028 (X : string) :
  Inspect.string_body (String backslash ("u2028" ++ X))
  = Inspect.prepend (Inspect.encode_rune 0x2028) (Inspect.string_body X).
Proof. reflexivity. Qed.

Lemma string_body_2029 (X : string) :
  Inspect.string_body (String backslash ("u2029" ++ X))
  = Inspect.prepend (Inspect.encode_rune 0x2029) (Inspect.string_body X).
Proof. reflexivity. Qed.

(** What [appendString] writes for a valid UTF-8 string reads back as the
    string. *)
Lemma string_roundtrip_bounded (n : nat) :
  forall s rest,
    String.length s <= n ->
    utf8.ValidString s = true ->
    Inspect.string_body (json.appendString_from s O true ++ String dquote rest)
    = Some (s, rest).
Proof.
  induction n as [| n IH]; intros s rest Hlen Hvalid.
  - destruct s; [reflexivity | simpl in Hlen; lia].
  - destruct s as [| c0 t]; [reflexivity |].
    unfold utf8.ValidString in Hvalid.
    cbn [utf8.valid_from json.appendString_from] in Hvalid |- *.
    cbn [String.length] in Hlen.
    destruct (byte_of c0 <? utf8.RuneSelf)%N eqn:Hascii.
    + rewrite string_app_assoc, (string_body_escape c0 _ Hascii).
      rewrite (IH t rest ltac:(lia) Hvalid). reflexivity.
    + destruct (utf8.DecodeRuneInString (substring 0 utf8.UTFMax (String c0 t)))
        as [r size] eqn:Hdec.
      destruct ((r =? utf8.RuneError)%N && (size =? 1)%nat) eqn:Hok; [discriminate |].
      destruct (decode_shape c0 t r size Hascii Hdec Hok)
        as (cont & tail & -> & Hsize & Habove & _ & Hspecial).
      rewrite <- Hsize in Hvalid |- *.
      rewrite valid_from_pending in Hvalid.
      rewrite string_length_app in Hlen.
      specialize (IH tail rest ltac:(lia) Hvalid).
      assert (Hlead : (utf8.RuneSelf <=? byte_of c0)%N = true).
      { apply N.leb_le. apply N.ltb_ge in Hascii. exact Hascii. }
      destruct ((r =? 0x2028)%N || (r =? 0x2029)%N) eqn:Hs.
      * specialize (Hspecial eq_refl).
        rewrite appendString_from_pending, appendString_from_keep.
        change (String c0 (cont ++ tail)) with (String c0 cont ++ tail).
        rewrite <- Hspecial.
        apply orb_true_iff in Hs. rewrite !N.eqb_eq in Hs.
        destruct Hs as [-> | ->]; cbn [append].
        -- change (json.hex (N.land 8232 15)) with "8"%char.
           etransitivity; [apply string_body_2028 |]. rewrite IH. reflexivity.
        -- change (json.hex (N.land 8233 15)) with "9"%char.
           etransitivity; [apply string_body_2029 |]. rewrite IH. reflexivity.
      * rewrite appendString_from_pending. cbn [append].
        rewrite string_app_assoc, (string_body_raw c0 _ Hlead),
          (string_body_above cont _ Habove), IH.
        reflexivity.
Qed.

Theorem string_roundtrip (s rest : string) :
  utf8.ValidString s = true ->
  Inspect.string_body (json.appendString_from s O true ++ String dquote rest)
  = Some (s, rest).
Proof. apply (string_roundtrip_bounded (String.length s)). apply le_n. Qed.

(** Valid strings put end to end make a valid string. *)
Lemma valid_app_bounded (n : nat) :
  forall a b,
    String.length a <= n ->
    utf8.ValidString a = true -> utf8.ValidString b = true ->
    utf8.ValidString (a ++ b) = true.
Proof.
  unfold utf8.ValidString.
  induction n as [| n IH]; intros a b Hlen Ha Hb.
  - destruct a; [exact Hb | simpl in Hlen; lia].
  - destruct a as [| c0 t]; [exact Hb |].
    cbn [String.length] in Hlen.
    cbn [append utf8.valid_from] in Ha |- *.
    destruct (byte_of c0 <? utf8.RuneSelf)%N eqn:Hascii.
    + apply IH; [lia | exact Ha | exact Hb].
    + destruct (utf8.DecodeRuneInString (substring 0 utf8.UTFMax (String c0 t)))
        as [r size] eqn:Hdec.
      destruct ((r =? utf8.RuneError)%N && (size =? 1)%nat) eqn:Hok; [discriminate |].
      destruct (decode_shape c0 t r size Hascii Hdec Hok)
        as (cont & tail & -> & Hsize & _ & Hlocal & _).
      rewrite string_app_assoc, (Hlocal (tail ++ b)), Hok.
      rewrite <- Hsize in Ha |- *.
      rewrite valid_from_pending in Ha |- *.
      rewrite string_length_app in Hlen.
      apply IH; [lia | exact Ha | exact Hb].
Qed.

Lemma valid_app (a b : string) :
  utf8.ValidString a = true -> utf8.ValidString b = true ->
  utf8.ValidString (a ++ b) = true.
Proof. apply (valid_app_bounded (String.length a)). apply le_n. Qed.

Lemma instruction_valid : utf8.ValidString instruction = true.
Proof. vm_compute. reflexivity. Qed.

Lemma body_shape (D : string) :
  json.encode_OpenAIRequest (buildRequest D)
  = (body_prefix ++ json.appendString_from (D ++ instruction) O true
     ++ String dquote body_suffix)%string.
Proof.
  unfold json.encode_OpenAIRequest, buildRequest, json.encode_Messages,
    json.encode_OpenAIRequestMessages.
  cbn [OpenAIRequest.Model OpenAIRequest.Messages OpenAIRequest.Temperature
       OpenAIRequestMessages.Role OpenAIRequestMessages.Content map String.concat].
  unfold body_prefix, body_suffix, json.member, json.appendString.
  generalize (json.appendString_from (D ++ instruction) 0 true). intros X.
  repeat match goal with
         | |- context [json.appendString_from ?s 0 true] =>
             let v := eval vm_compute in (json.appendString_from s 0 true) in
             change (json.appendString_from s 0 true) with v
         end.
  change (json.FormatFloat half) with "0.5".
  repeat (first [rewrite string_app_assoc | progress cbn [append]]).
  reflexivity.
Qed.


Lemma parse_request_text (X content : string) (f : nat) :
  (forall rest, Inspect.string_body (X ++ String dquote rest) = Some (content, rest)) ->
  Inspect.parse_value (9 + f) (body_prefix ++ X ++ String dquote body_suffix)
  = Some (request_document content, EmptyString).
Proof.
  intros HX.
  let v := eval vm_compute in body_prefix in change body_prefix with v.
  let v := eval vm_compute in body_suffix in change body_suffix with v.
  cbn [append Nat.add].
  cbn.
  rewrite HX.
  cbn.
  reflexivity.
Qed.

Theorem document_of_request (D : string) :
  utf8.ValidString D = true ->
  Inspect.document (json.encode_OpenAIRequest (buildRequest D))
  = Some (request_document (D ++ instruction)).
Proof.
  intros HD.
  pose proof (fun rest =>
                string_roundtrip (D ++ instruction) rest
                  (valid_app D instruction HD instruction_valid)) as HX.
  rewrite body_shape. unfold Inspect.document. rewrite string_length_app.
  set (n := String.length (json.appendString_from (D ++ instruction) 0 true
                           ++ String dquote body_suffix)).
  change (S (String.length body_prefix + n))
    with (9 + (String.length body_prefix - 8 + n)).
  rewrite (parse_request_text _ _ _ HX). reflexivity.
Qed.

End ReadBack.

(** ** The request of the review generator *)

Lemma HasPrefix_app (a b : string) : strings.HasPrefix (a ++ b) a = true.
Proof.
  induction a as [| c a IH]; [destruct b; reflexivity |].
  simpl. rewrite Ascii.eqb_refl. exact IH.
Qed.

(** The one request the generator sends, when [http.NewRequest] accepts
    it. *)
Lemma generate_requests (w : World) (prDiff apiKey : string) :
  http_NewRequest w "POST" openAICompletionURL
    (json.encode_OpenAIRequest (buildRequest prDiff)) = None ->
  requests (trace w (generateFinalConsideration prDiff apiKey))
  = [newRequest (json.encode_OpenAIRequest (buildRequest prDiff)) apiKey].
Proof.
  intros H1. unfold trace.
  set (reqBody := json.encode_OpenAIRequest (buildRequest prDiff)) in *.
  set (req := newRequest reqBody apiKey).
  destruct (client_Do w req) as [resp | c] eqn:H2.
  2: { rewrite (generate_request_fails w prDiff apiKey c H1 H2). reflexivity. }
  destruct (io_ReadAll w (RespBody resp)) as [body [c |]] eqn:H3.
  { rewrite (generate_read_fails w prDiff apiKey resp body c H1 H2 H3). reflexivity. }
  destruct (json_Unmarshal w body) as [r | c] eqn:H4.
  2: { rewrite (generate_unmarshal_fails w prDiff apiKey resp body c H1 H2 H3 H4).
       reflexivity. }
  destruct (OpenAIReponse.Choices r) as [| c rest] eqn:H5.
  - rewrite (generate_no_choice w prDiff apiKey resp body r H1 H2 H3 H4 H5). reflexivity.
  - rewrite (generate_first_choice w prDiff apiKey resp body r c rest H1 H2 H3 H4 H5).
    reflexivity.
Qed.




(** * Further properties of the functions of main.go *)

(** ** The segments of a URL *)

Section Segments.

Local Open Scope string_scope.

Lemma HasPrefix_empty (s : string) : strings.HasPrefix s "" = true.
Proof. destruct s; reflexivity. Qed.

(** One step of the scan for the separator [/]. *)
Lemma split_slash_step (c : ascii) (s cur : string) :
  strings.split_from "/" (String c s) O cur =
  if Ascii.eqb c "/"
  then cur :: strings.split_from "/" s O ""
  else strings.split_from "/" s O (cur ++ String c "").
Proof.
  cbn [strings.split_from strings.HasPrefix]. rewrite HasPrefix_empty, andb_true_r.
  reflexivity.
Qed.

Lemma split_slash_length (s cur : string) :
  List.length (strings.split_from "/" s O cur) = S (count_byte "/" s).
Proof.
  revert cur. induction s as [| c s IH]; intros cur; [reflexivity |].
  rewrite split_slash_step. cbn [count_byte].
  destruct (Ascii.eqb c "/"); cbn [List.length]; rewrite IH; reflexivity.
Qed.

Lemma split_slash_join (s cur : string) :
  String.concat "/" (strings.split_from "/" s O cur) = cur ++ s.
Proof.
  revert cur. induction s as [| c s IH]; intros cur.
  - cbn. rewrite string_app_nil_r. reflexivity.
  - rewrite split_slash_step. destruct (Ascii.eqb_spec c "/") as [-> | Hc].
    + pose proof (IH "") as IH0.
      destruct (strings.split_from "/" s 0 "") as [| seg segs] eqn:E.
      * pose proof (split_slash_length s "") as Hl. rewrite E in Hl. discriminate Hl.
      * cbn [String.concat]. cbn [String.concat] in IH0. rewrite IH0. reflexivity.
    + rewrite IH, string_app_assoc. reflexivity.
Qed.

Lemma count_byte_app (c : ascii) (a b : string) :
  count_byte c (a ++ b) = count_byte c a + count_byte c b.
Proof.
  induction a as [| x a IH]; [reflexivity |].
  cbn [append count_byte]. rewrite IH. apply Nat.add_assoc.
Qed.

Lemma split_slash_segments (s cur : string) :
  count_byte "/" cur = 0 ->
  Forall (fun seg => count_byte "/" seg = 0) (strings.split_from "/" s O cur).
Proof.
  revert cur. induction s as [| c s IH]; intros cur Hcur.
  - constructor; [exact Hcur | constructor].
  - rewrite split_slash_step. destruct (Ascii.eqb c "/") eqn:Hc.
    + constructor; [exact Hcur | apply IH; reflexivity].
    + apply IH. rewrite count_byte_app, Hcur. cbn [count_byte]. rewrite Hc. reflexivity.
Qed.

End Segments.

(** X1.  The check of line 94 counts slashes: [getPRDiff] rejects a URL
    with the invalid-URL error exactly when the URL has fewer than six
    bytes [/], and it runs the [gh] command exactly when it has six or
    more. *)
Theorem X1_rejected_iff_fewer_than_six_slashes (w : World) (prURL : string) :
  (returned w (getPRDiff prURL) = Some (Err ErrInvalidPRURL)
   <-> count_byte "/" prURL < 6)
  /\ (trace w (getPRDiff prURL) = [Called (CmdOutput (diff_command prURL))]
      <-> 6 <= count_byte "/" prURL).
Proof.
  pose proof (split_slash_length prURL EmptyString) as Hlen.
  fold (strings.Split prURL "/") in Hlen.
  destruct (Nat.lt_ge_cases (count_byte "/" prURL) 6) as [Hfew | Hmany].
  - assert (Hshort : List.length (strings.Split prURL "/") < 7) by lia.
    rewrite (getPRDiff_short prURL Hshort). split; split; intros H.
    + exact Hfew.
    + reflexivity.
    + discriminate H.
    + lia.
  - assert (Hlong : 7 <= List.length (strings.Split prURL "/")) by lia.
    unfold returned, trace. rewrite (getPRDiff_run w prURL Hlong). cbn [fst snd].
    split; split; intros H.
    + destruct (snd (exec_Output w (diff_command prURL))); discriminate H.
    + lia.
    + exact Hmany.
    + reflexivity.
Qed.

(** X2.  Splitting loses nothing and leaves no slash in a segment: the
    segments joined by [/] are the URL again, so the organization, the
    repository and the number that [getPRDiff] passes on hold no [/], and
    the [-R] argument of the command holds exactly one. *)
Theorem X2_segments_rebuild_url (prURL : string) :
  String.concat "/" (strings.Split prURL "/") = prURL
  /\ Forall (fun seg => count_byte "/" seg = 0) (strings.Split prURL "/")
  /\ count_byte "/" (nth 4 (diff_command prURL) EmptyString) = 1
  /\ count_byte "/" (nth 5 (diff_command prURL) EmptyString) = 0.
Proof.
  pose proof (split_slash_segments prURL EmptyString eq_refl) as Hseg.
  fold (strings.Split prURL "/") in Hseg.
  assert (Hnth : forall i, count_byte "/" (nth i (strings.Split prURL "/") EmptyString) = 0).
  { intros i. destruct (Nat.lt_ge_cases i (List.length (strings.Split prURL "/"))) as [Hi | Hi].
    - rewrite Forall_forall in Hseg. apply Hseg. apply nth_In. exact Hi.
    - rewrite nth_overflow by exact Hi. reflexivity. }
  split; [apply (split_slash_join prURL EmptyString) |].
  split; [exact Hseg |].
  unfold diff_command. cbn [nth]. split.
  - rewrite !count_byte_app, !Hnth. reflexivity.
  - apply Hnth.
Qed.

(** ** Picking calls out of a run *)

Lemma pick_app (A : Type) (f : Event -> option A) (t u : list Event) :
  pick f (t ++ u) = pick f t ++ pick f u.
Proof.
  induction t as [| ev t IH]; [reflexivity |].
  cbn [app pick]. destruct (f ev); rewrite IH; reflexivity.
Qed.

Lemma processes_pick (t : list Event) : processes t = pick spawned t.
Proof.
  induction t as [| ev t IH]; [reflexivity |].
  cbn [processes pick]. rewrite IH. reflexivity.
Qed.

Lemma requests_pick (t : list Event) : requests t = pick sent t.
Proof.
  induction t as [| ev t IH]; [reflexivity |].
  cbn [requests pick]. rewrite IH. reflexivity.
Qed.

(** The calls of [getPRDiff]: none, or the one command. *)
Lemma getPRDiff_trace_cases (w : World) (prURL : string) :
  (List.length (strings.Split prURL "/") < 7
   /\ exec w (getPRDiff prURL) = ([], Some (Err ErrInvalidPRURL)))
  \/ (7 <= List.length (strings.Split prURL "/")
      /\ exists cause,
           snd (exec_Output w (diff_command prURL)) = Some cause
           /\ exec w (getPRDiff prURL) =
              ([Called (CmdOutput (diff_command prURL))], Some (Err (ErrRunningGh cause))))
  \/ (7 <= List.length (strings.Split prURL "/")
      /\ snd (exec_Output w (diff_command prURL)) = None
      /\ exec w (getPRDiff prURL) =
         ([Called (CmdOutput (diff_command prURL))],
          Some (Ok (fst (exec_Output w (diff_command prURL)))))).
Proof.
  destruct (Nat.lt_ge_cases (List.length (strings.Split prURL "/")) 7) as [H | H].
  - left. split; [exact H |]. rewrite (getPRDiff_short prURL H). reflexivity.
  - right. rewrite (getPRDiff_run w prURL H).
    destruct (snd (exec_Output w (diff_command prURL))) as [c |] eqn:E.
    + left. split; [exact H |]. exists c. split; reflexivity.
    + right. repeat split. exact H.
Qed.

(** The calls of [generateFinalConsideration], by how far it gets. *)
Lemma generate_trace_cases (w : World) (prDiff apiKey : string) :
  let body := json.encode_OpenAIRequest (buildRequest prDiff) in
  let req := newRequest body apiKey in
  (http_NewRequest w "POST" openAICompletionURL body <> None
   /\ trace w (generateFinalConsideration prDiff apiKey)
      = [Called (HttpNewRequest "POST" openAICompletionURL body)])
  \/ (http_NewRequest w "POST" openAICompletionURL body = None
      /\ (exists cause, client_Do w req = Err cause)
      /\ trace w (generateFinalConsideration prDiff apiKey)
         = [Called (HttpNewRequest "POST" openAICompletionURL body); Called (ClientDo req)])
  \/ (http_NewRequest w "POST" openAICompletionURL body = None
      /\ exists resp mid,
           client_Do w req = Ok resp
           /\ (mid = [] \/ mid = [Called (JsonUnmarshal (fst (io_ReadAll w (RespBody resp))))])
           /\ trace w (generateFinalConsideration prDiff apiKey)
              = [Called (HttpNewRequest "POST" openAICompletionURL body);
                 Called (ClientDo req); Called (ReadAll (RespBody resp))]
                ++ mid ++ [Called (BodyClose (RespBody resp))]).
Proof.
  intros body req. unfold trace.
  destruct (http_NewRequest w "POST" openAICompletionURL body) as [c |] eqn:H1.
  { left. split; [discriminate |].
    rewrite (generate_request_rejected w prDiff apiKey c H1). reflexivity. }
  right.
  destruct (client_Do w req) as [resp | c] eqn:H2.
  2: { left. split; [reflexivity |]. split; [exists c; reflexivity |].
       rewrite (generate_request_fails w prDiff apiKey c H1 H2). reflexivity. }
  right. split; [reflexivity |]. exists resp.
  destruct (io_ReadAll w (RespBody resp)) as [data [c |]] eqn:H3.
  { exists []. split; [reflexivity |]. split; [left; reflexivity |].
    rewrite (generate_read_fails w prDiff apiKey resp data c H1 H2 H3). reflexivity. }
  exists [Called (JsonUnmarshal data)]. split; [reflexivity |].
  split; [right; reflexivity |].
  destruct (json_Unmarshal w data) as [r | c] eqn:H4.
  2: { rewrite (generate_unmarshal_fails w prDiff apiKey resp data c H1 H2 H3 H4).
       reflexivity. }
  destruct (OpenAIReponse.Choices r) as [| c rest] eqn:H5.
  - rewrite (generate_no_choice w prDiff apiKey resp data r H1 H2 H3 H4 H5). reflexivity.
  - rewrite (generate_first_choice w prDiff apiKey resp data r c rest H1 H2 H3 H4 H5).
    reflexivity.
Qed.

(** ** Every run of [main], call by call *)

(** After the load of the configuration a run is one of three: it prints
    at once (no URL, or a URL that is rejected), it runs the command and
    prints its failure, or it runs the command, goes through the generator
    and prints the outcome. *)
Lemma main_run_cases (w : World) (pr : option string) :
  exists mid ops,
    trace w (main pr) = trace w loadConfig ++ mid ++ [Called (Println ops)]
    /\ (mid = []
        \/ (exists prURL cause,
              pr = Some prURL
              /\ snd (exec_Output w (diff_command prURL)) = Some cause
              /\ mid = [Called (CmdOutput (diff_command prURL))])
        \/ (exists prURL cfg lerr,
              pr = Some prURL
              /\ returned w loadConfig = Some (cfg, lerr)
              /\ snd (exec_Output w (diff_command prURL)) = None
              /\ mid = Called (CmdOutput (diff_command prURL))
                       :: trace w (generateFinalConsideration
                                     (fst (exec_Output w (diff_command prURL)))
                                     (FileConfig.Key (FileConfig.ApiKey cfg))))).
Proof.
  destruct (loadConfig_quiet w) as (((cfg, lerr) & Hc) & _).
  destruct (String.eqb match pr with Some v => v | None => EmptyString end "") eqn:Hpr.
  - apply String.eqb_eq in Hpr. destruct (main_no_flag w pr Hpr) as [Ht _].
    exists [], [usage]. split; [exact Ht | left; reflexivity].
  - destruct pr as [prURL |]; [| discriminate].
    destruct (getPRDiff_trace_cases w prURL)
      as [(_ & E) | [(_ & cause & Hgh & E) | (_ & Hgh & E)]].
    + assert (Hd : returned w (getPRDiff prURL) = Some (Err ErrInvalidPRURL))
        by (unfold returned; rewrite E; reflexivity).
      destruct (main_stdout_diff_fails w prURL _ Hpr Hd) as [Ht _].
      exists [], ["Error fetching PR diff:"; Error ErrInvalidPRURL].
      split; [| left; reflexivity].
      rewrite Ht. unfold trace at 2. rewrite E. reflexivity.
    + assert (Hd : returned w (getPRDiff prURL) = Some (Err (ErrRunningGh cause)))
        by (unfold returned; rewrite E; reflexivity).
      destruct (main_stdout_diff_fails w prURL _ Hpr Hd) as [Ht _].
      exists [Called (CmdOutput (diff_command prURL))],
        ["Error fetching PR diff:"; Error (ErrRunningGh cause)].
      split; [| right; left; exists prURL, cause; repeat split; assumption].
      rewrite Ht. unfold trace at 2. rewrite E. reflexivity.
    + set (prDiff := fst (exec_Output w (diff_command prURL))) in *.
      assert (Hd : returned w (getPRDiff prURL) = Some (Ok prDiff))
        by (unfold returned; rewrite E; reflexivity).
      destruct (generate_returns w prDiff (FileConfig.Key (FileConfig.ApiKey cfg)))
        as (f & Hf).
      destruct (main_stdout_diff_ok w prURL prDiff cfg lerr f Hpr Hc Hd Hf) as [Ht _].
      eexists _, _. split.
      * rewrite Ht. unfold trace at 2. rewrite E. cbn [fst]. rewrite <- app_assoc.
        reflexivity.
      * right; right. exists prURL, cfg, lerr. repeat split; assumption.
Qed.

(** A run depends on the world only through the answers to the calls it
    makes. *)
Lemma exec_agree (A : Type) (keep : Event -> bool) (w w' : World) (p : Prog A) :
  (forall (X : Type) (e : Eff X), keep (Called e) = true -> answer w e = answer w' e) ->
  forallb keep (trace w p) = true ->
  exec w p = exec w' p.
Proof.
  intros Hsame. unfold trace.
  induction p as [a | msg | X e k IH]; intros Hkeep; [reflexivity | reflexivity |].
  cbn [exec fst forallb] in Hkeep |- *.
  apply andb_true_iff in Hkeep. destruct Hkeep as [He Hrest].
  rewrite <- (Hsame X e He), <- (IH _ Hrest). reflexivity.
Qed.

(** What the three stage functions never do. *)
Lemma loadConfig_picks (w : World) :
  pick printed (trace w loadConfig) = []
  /\ pick closed_body (trace w loadConfig) = [].
Proof.
  unfold trace.
  destruct (loadConfig_cases w) as [(c & _ & E) | [(u & c & _ & _ & E) | (u & f & _ & _ & E)]];
    rewrite E; split; reflexivity.
Qed.

Lemma generate_picks (w : World) (prDiff apiKey : string) :
  pick printed (trace w (generateFinalConsideration prDiff apiKey)) = []
  /\ processes (trace w (generateFinalConsideration prDiff apiKey)) = []
  /\ forallb (fun ev => negb (is_config_call ev))
             (trace w (generateFinalConsideration prDiff apiKey)) = true
  /\ List.length (requests (trace w (generateFinalConsideration prDiff apiKey))) <= 1.
Proof.
  destruct (generate_trace_cases w prDiff apiKey)
    as [(_ & E) | [(_ & _ & E) | (_ & resp & mid & _ & [-> | ->] & E)]];
    rewrite E; cbn; repeat split; lia.
Qed.

(** ** Resources *)

(** X4.  [loadConfig] asks for the current user first; only when there is
    one does it open a file, and the only file it opens is
    [.config/openai/config.toml] under the home directory of that user.
    When the file opens it is closed exactly once, by the last call of
    the function, whether the decoding succeeds or fails; when it
    does not open nothing is closed. *)
Theorem X4_config_file_closed_iff_opened (w : World) :
  match user_Current w with
  | Err _ =>
      pick opened (trace w loadConfig) = []
      /\ pick closed_file (trace w loadConfig) = []
  | Ok u =>
      pick opened (trace w loadConfig)
      = [(HomeDir u ++ "/.config/openai/config.toml")%string]
      /\ match os_Open w (HomeDir u ++ "/.config/openai/config.toml")%string with
         | Err _ => pick closed_file (trace w loadConfig) = []
         | Ok file =>
             pick closed_file (trace w loadConfig) = [file]
             /\ exists before,
                  trace w loadConfig = before ++ [Called (FileClose file)]
         end
  end.
Proof.
  unfold trace.
  destruct (loadConfig_cases w)
    as [(c & Hu & E) | [(u & c & Hu & Ho & E) | (u & f & Hu & Ho & E)]];
    rewrite Hu, E.
  - split; reflexivity.
  - split; [reflexivity |].
    change (HomeDir u ++ "/.config/openai/config.toml")%string
      with (HomeDir u ++ CONFIG_FOLDER ++ FILENAME)%string.
    rewrite Ho. reflexivity.
  - split; [reflexivity |].
    change (HomeDir u ++ "/.config/openai/config.toml")%string
      with (HomeDir u ++ CONFIG_FOLDER ++ FILENAME)%string.
    rewrite Ho. split; [reflexivity |].
    exists [Called UserCurrent;
            Called (OsOpen (HomeDir u ++ CONFIG_FOLDER ++ FILENAME)%string);
            Called (TomlDecode f FileConfig.zero)].
    reflexivity.
Qed.

(** X5.  [generateFinalConsideration] sends nothing when [http.NewRequest]
    rejects the request, and otherwise sends exactly one request.  When the
    client returns a response, its body is closed exactly once, by the last
    call of the function, on every path (read failure, malformed JSON, no
    choice, success); when the client fails no body is closed. *)
Theorem X5_response_body_closed_iff_received (w : World) (prDiff apiKey : string) :
  match http_NewRequest w "POST" openAICompletionURL
          (json.encode_OpenAIRequest (buildRequest prDiff)) with
  | Some _ =>
      requests (trace w (generateFinalConsideration prDiff apiKey)) = []
      /\ pick closed_body (trace w (generateFinalConsideration prDiff apiKey)) = []
  | None =>
      requests (trace w (generateFinalConsideration prDiff apiKey))
      = [newRequest (json.encode_OpenAIRequest (buildRequest prDiff)) apiKey]
      /\ match client_Do w (newRequest (json.encode_OpenAIRequest (buildRequest prDiff))
                                       apiKey) with
         | Err _ =>
             pick closed_body (trace w (generateFinalConsideration prDiff apiKey)) = []
         | Ok resp =>
             pick closed_body (trace w (generateFinalConsideration prDiff apiKey))
             = [RespBody resp]
             /\ exists before,
                  trace w (generateFinalConsideration prDiff apiKey)
                  = before ++ [Called (BodyClose (RespBody resp))]
         end
  end.
Proof.
  destruct (generate_trace_cases w prDiff apiKey)
    as [(H1 & E) | [(H1 & (c & H2) & E) | (H1 & resp & mid & H2 & Hmid & E)]].
  - destruct (http_NewRequest w "POST" openAICompletionURL
                (json.encode_OpenAIRequest (buildRequest prDiff))); [| contradiction].
    rewrite E. split; reflexivity.
  - rewrite H1, H2, E. split; reflexivity.
  - rewrite H1, H2, E. split; [destruct Hmid as [-> | ->]; reflexivity |].
    split; [destruct Hmid as [-> | ->]; reflexivity |].
    eexists. rewrite app_assoc. reflexivity.
Qed.

(** ** From the configuration and the diff to the request *)

(** The run of [main] with a URL that [gh] answers: the command, then the
    calls of the generator on what the command printed, then one print. *)
Lemma main_after_diff (w : World) (prURL prDiff : string) (cfg : FileConfig.t)
      (lerr : option error) :
  7 <= List.length (strings.Split prURL "/") ->
  returned w loadConfig = Some (cfg, lerr) ->
  exec_Output w (diff_command prURL) = (prDiff, None) ->
  exists ops,
    trace w (main (Some prURL))
    = trace w loadConfig
      ++ Called (CmdOutput (diff_command prURL))
         :: trace w (generateFinalConsideration prDiff
                       (FileConfig.Key (FileConfig.ApiKey cfg)))
      ++ [Called (Println ops)].
Proof.
  intros Hlen Hc Hgh.
  assert (E : exec w (getPRDiff prURL)
              = ([Called (CmdOutput (diff_command prURL))], Some (Ok prDiff)))
    by (rewrite (getPRDiff_run w prURL Hlen), Hgh; reflexivity).
  assert (Hd : returned w (getPRDiff prURL) = Some (Ok prDiff))
    by (unfold returned; rewrite E; reflexivity).
  destruct (generate_returns w prDiff (FileConfig.Key (FileConfig.ApiKey cfg))) as (f & Hf).
  destruct (main_stdout_diff_ok w prURL prDiff cfg lerr f
              (long_url_not_empty prURL Hlen) Hc Hd Hf) as [Ht _].
  eexists. rewrite Ht. unfold trace at 2. rewrite E. reflexivity.
Qed.

(** X3.  When [gh] prints a diff and [http.NewRequest] accepts the
    request, the run starts exactly one process and sends exactly one
    request: a POST to the completion URL whose two headers are the JSON
    content type and [Bearer] followed by the key of the loaded
    configuration, and whose body is the serialized request built from
    exactly what [gh] printed. *)
Theorem X3_one_request_from_config_and_diff (w : World) (prURL prDiff : string)
        (cfg : FileConfig.t) (lerr : option error) :
  7 <= List.length (strings.Split prURL "/") ->
  returned w loadConfig = Some (cfg, lerr) ->
  exec_Output w (diff_command prURL) = (prDiff, None) ->
  http_NewRequest w "POST" openAICompletionURL
    (json.encode_OpenAIRequest (buildRequest prDiff)) = None ->
  processes (trace w (main (Some prURL))) = [diff_command prURL]
  /\ requests (trace w (main (Some prURL)))
     = [mkRequest "POST" "https://api.openai.com/v1/chat/completions"
          [("Content-Type", "application/json");
           ("Authorization",
            ("Bearer " ++ FileConfig.Key (FileConfig.ApiKey cfg))%string)]
          (json.encode_OpenAIRequest (buildRequest prDiff))].
Proof.
  intros Hlen Hc Hgh H1.
  destruct (main_after_diff w prURL prDiff cfg lerr Hlen Hc Hgh) as (ops & Ht).
  destruct (loadConfig_quiet w) as (_ & _ & Hp & Hr & _).
  destruct (generate_picks w prDiff (FileConfig.Key (FileConfig.ApiKey cfg)))
    as (_ & Hgp & _).
  rewrite Ht. split.
  - rewrite processes_app, Hp. cbn [app processes spawned].
    rewrite processes_app, Hgp. reflexivity.
  - rewrite requests_app, Hr. cbn [app requests sent].
    rewrite requests_app, (generate_requests w prDiff _ H1). reflexivity.
Qed.

Lemma X3_witness :
  processes (trace Sample.good (main (Some Sample.pr_url)))
  = [["gh"; "pr"; "diff"; "-R"; "orgX/repoY"; "123"]]
  /\ requests (trace Sample.good (main (Some Sample.pr_url)))
     = [mkRequest "POST" "https://api.openai.com/v1/chat/completions"
          [("Content-Type", "application/json"); ("Authorization", "Bearer sk-test")]
          (json.encode_OpenAIRequest (buildRequest "diff --git a/x b/x"))].
Proof.
  exact (X3_one_request_from_config_and_diff Sample.good Sample.pr_url
           "diff --git a/x b/x" Sample.config None
           ltac:(vm_compute; lia) eq_refl eq_refl eq_refl).
Defined.

(** X6.  When the configuration cannot be loaded because there is no
    current user or the file does not open, a run with a URL still goes
    through: it sends its request with the empty key, that is with the
    header [Authorization: Bearer ] and nothing after the space. *)
Theorem X6_missing_config_sends_empty_bearer (w : World) (prURL prDiff : string) :
  7 <= List.length (strings.Split prURL "/") ->
  match user_Current w with
  | Err _ => True
  | Ok u =>
      match os_Open w (HomeDir u ++ "/.config/openai/config.toml")%string with
      | Err _ => True
      | Ok _ => False
      end
  end ->
  exec_Output w (diff_command prURL) = (prDiff, None) ->
  http_NewRequest w "POST" openAICompletionURL
    (json.encode_OpenAIRequest (buildRequest prDiff)) = None ->
  (exists e, returned w loadConfig = Some (FileConfig.zero, Some e))
  /\ map Header (requests (trace w (main (Some prURL))))
     = [[("Content-Type", "application/json"); ("Authorization", "Bearer ")]].
Proof.
  intros Hlen Hmissing Hgh H1.
  assert (Hc : exists e, returned w loadConfig = Some (FileConfig.zero, Some e)).
  { unfold returned.
    destruct (loadConfig_cases w)
      as [(c & Hu & E) | [(u & c & Hu & Ho & E) | (u & f & Hu & Ho & E)]];
      rewrite E; cbn [snd].
    - eexists; reflexivity.
    - eexists; reflexivity.
    - exfalso. rewrite Hu in Hmissing.
      change (HomeDir u ++ "/.config/openai/config.toml")%string
        with (HomeDir u ++ CONFIG_FOLDER ++ FILENAME)%string in Hmissing.
      rewrite Ho in Hmissing. exact Hmissing. }
  split; [exact Hc |]. destruct Hc as (e & Hc).
  destruct (main_after_diff w prURL prDiff FileConfig.zero (Some e) Hlen Hc Hgh)
    as (ops & Ht).
  destruct (loadConfig_quiet w) as (_ & _ & _ & Hr & _).
  rewrite Ht, requests_app, Hr. cbn [app requests sent].
  rewrite requests_app, (generate_requests w prDiff _ H1). reflexivity.
Qed.

Lemma X6_witness :
  (exists e, returned Sample.no_user loadConfig = Some (FileConfig.zero, Some e))
  /\ map Header (requests (trace Sample.no_user (main (Some Sample.pr_url))))
     = [[("Content-Type", "application/json"); ("Authorization", "Bearer ")]].
Proof.
  exact (X6_missing_config_sends_empty_bearer Sample.no_user Sample.pr_url
           "diff --git a/x b/x" ltac:(vm_compute; lia) I eq_refl eq_refl).
Defined.

(** X7.  Of a completion with several choices only the first counts: the
    generator returns the content of the first choice whatever the other
    choices are, and the run prints that content and a newline (a lone
    newline when the content is empty) by its last call. *)
Theorem X7_first_of_several_choices (w : World) (prURL prDiff body : string)
        (cfg : FileConfig.t) (lerr : option error) (resp : Response)
        (r : OpenAIReponse.t) (c : OpenAIReponse.choice)
        (others : list OpenAIReponse.choice) :
  7 <= List.length (strings.Split prURL "/") ->
  returned w loadConfig = Some (cfg, lerr) ->
  exec_Output w (diff_command prURL) = (prDiff, None) ->
  http_NewRequest w "POST" openAICompletionURL
    (json.encode_OpenAIRequest (buildRequest prDiff)) = None ->
  client_Do w (newRequest (json.encode_OpenAIRequest (buildRequest prDiff))
                          (FileConfig.Key (FileConfig.ApiKey cfg))) = Ok resp ->
  io_ReadAll w (RespBody resp) = (body, None) ->
  json_Unmarshal w body = Ok r ->
  OpenAIReponse.Choices r = c :: others ->
  returned w (generateFinalConsideration prDiff (FileConfig.Key (FileConfig.ApiKey cfg)))
    = Some (Ok (OpenAIReponse.Content (OpenAIReponse.Message c)))
  /\ stdout (trace w (main (Some prURL)))
     = (OpenAIReponse.Content (OpenAIReponse.Message c) ++ String newline "")%string
  /\ exists before,
       trace w (main (Some prURL))
       = before ++ [Called (Println [OpenAIReponse.Content (OpenAIReponse.Message c)])].
Proof.
  intros Hlen Hc Hgh H1 H2 H3 H4 H5.
  destruct (first_choice_printed w prURL prDiff body cfg lerr resp r c others
              Hlen Hc Hgh H1 H2 H3 H4 H5) as [Hf Hs].
  split; [exact Hf | split; [exact Hs |]].
  assert (Hd : returned w (getPRDiff prURL) = Some (Ok prDiff))
    by (unfold returned; rewrite (getPRDiff_run w prURL Hlen), Hgh; reflexivity).
  destruct (main_stdout_diff_ok w prURL prDiff cfg lerr _
              (long_url_not_empty prURL Hlen) Hc Hd Hf) as [Ht _].
  eexists. rewrite Ht, !app_assoc. reflexivity.
Qed.

Lemma X7_witness :
  returned (Sample.answering
              (Sample.completion [Sample.choice ""; Sample.choice Sample.review]))
    (generateFinalConsideration "diff --git a/x b/x" "sk-test")
  = Some (Ok EmptyString)
  /\ stdout (trace (Sample.answering
                      (Sample.completion [Sample.choice ""; Sample.choice Sample.review]))
                   (main (Some Sample.pr_url)))
     = String newline ""
  /\ exists before,
       trace (Sample.answering
                (Sample.completion [Sample.choice ""; Sample.choice Sample.review]))
             (main (Some Sample.pr_url))
       = before ++ [Called (Println [EmptyString])].
Proof.
  exact (X7_first_of_several_choices
           (Sample.answering
              (Sample.completion [Sample.choice ""; Sample.choice Sample.review]))
           Sample.pr_url "diff --git a/x b/x" "{}" Sample.config None (mkResponse 1)
           (Sample.completion [Sample.choice ""; Sample.choice Sample.review])
           (Sample.choice "") [Sample.choice Sample.review]
           ltac:(vm_compute; lia) eq_refl eq_refl eq_refl eq_refl eq_refl eq_refl
           eq_refl).
Defined.

(** ** What every run has in common *)


(** After the load of the configuration no call touches it. *)
Lemma main_rest_no_config_call (w : World) (pr : option string) :
  exists rest,
    trace w (main pr) = trace w loadConfig ++ rest
    /\ forallb (fun ev => negb (is_config_call ev)) rest = true.
Proof.
  destruct (main_run_cases w pr) as (mid & ops & Ht & Hmid).
  exists (mid ++ [Called (Println ops)]). split; [exact Ht |].
  rewrite forallb_app. cbn [forallb is_config_call negb andb]. rewrite andb_true_r.
  destruct Hmid as [-> | [(u & c & _ & _ & ->) | (u & cfg & lerr & _ & _ & _ & ->)]];
    try reflexivity.
  cbn [forallb is_config_call negb andb]. apply generate_picks.
Qed.

(** X9.  A run is the calls that read the configuration followed by calls
    that never touch it again.  Among the latter there is at most one [gh]
    process and at most one request, and a request is sent only in a run
    with a URL, after the [gh] command for that URL and only if the command
    reported no error. *)
Theorem X9_config_then_command_then_request (w : World) (pr : option string) :
  exists rest,
    trace w (main pr) = trace w loadConfig ++ rest
    /\ forallb is_config_call (trace w loadConfig) = true
    /\ forallb (fun ev => negb (is_config_call ev)) rest = true
    /\ List.length (processes rest) <= 1
    /\ List.length (requests rest) <= 1
    /\ (requests rest <> [] ->
        exists prURL between req after,
          pr = Some prURL
          /\ snd (exec_Output w (diff_command prURL)) = None
          /\ rest = Called (CmdOutput (diff_command prURL))
                    :: between ++ Called (ClientDo req) :: after).
Proof.
  destruct (main_run_cases w pr) as (mid & ops & Ht & Hmid).
  destruct (loadConfig_quiet w) as (_ & Hcfg & _).
  exists (mid ++ [Called (Println ops)]).
  split; [exact Ht |]. split; [exact Hcfg |].
  destruct Hmid as [-> | [(u & c & _ & _ & ->) | (u & cfg & lerr & -> & _ & Hgh & ->)]].
  - cbn. repeat split; try lia. intros H. contradiction.
  - cbn. repeat split; try lia. intros H. contradiction.
  - set (prDiff := fst (exec_Output w (diff_command u))).
    set (key := FileConfig.Key (FileConfig.ApiKey cfg)).
    destruct (generate_picks w prDiff key) as (_ & Hgp & Hgc & Hgr).
    cbn [app forallb is_config_call negb andb processes spawned requests sent].
    rewrite forallb_app, processes_app, requests_app, Hgc, Hgp.
    cbn [forallb is_config_call negb andb processes requests spawned sent app
         List.length].
    rewrite app_nil_r. repeat split; try lia.
    intros Hreq.
    destruct (generate_trace_cases w prDiff key)
      as [(_ & E) | [(_ & _ & E) | (_ & resp & m & _ & _ & E)]];
      fold prDiff key in E; rewrite E in Hreq |- *.
    + exfalso. apply Hreq. reflexivity.
    + eexists u, [_], _, _. split; [reflexivity |]. split; [exact Hgh |]. reflexivity.
    + eexists u, [_], _, _. split; [reflexivity |]. split; [exact Hgh |]. reflexivity.
Qed.

(** ** The custom prompt *)

Lemma loadConfig_with_custom_prompt (custom : string) (w : World) :
  trace (with_custom_prompt custom w) loadConfig = trace w loadConfig
  /\ match returned w loadConfig with
     | Some (cfg, lerr) =>
         exists cfg',
           returned (with_custom_prompt custom w) loadConfig = Some (cfg', lerr)
           /\ FileConfig.Key (FileConfig.ApiKey cfg') = FileConfig.Key (FileConfig.ApiKey cfg)
     | None => False
     end.
Proof.
  unfold trace, returned, loadConfig.
  cbn [bind call exec answer fst snd with_custom_prompt user_Current os_Open toml_Decode].
  destruct (user_Current w) as [u | c].
  2: { split; [reflexivity |]. eexists. split; reflexivity. }
  cbn [bind call exec answer fst snd with_custom_prompt user_Current os_Open toml_Decode].
  destruct (os_Open w (HomeDir u ++ CONFIG_FOLDER ++ FILENAME)%string) as [file | c].
  2: { split; [reflexivity |]. eexists. split; reflexivity. }
  cbn [bind call exec answer fst snd with_custom_prompt user_Current os_Open toml_Decode].
  destruct (snd (toml_Decode w file FileConfig.zero)) as [c |];
    (split; [reflexivity |]); eexists; split; reflexivity.
Qed.

(** X10.  The custom prompt of the configuration file is decoded and then
    never used: with any other custom prompt in the file, [main] makes the
    very same calls with the very same arguments, so it starts the same
    process, sends the same request and prints the same text. *)
Theorem X10_custom_prompt_never_used (custom : string) (w : World) (pr : option string) :
  trace (with_custom_prompt custom w) (main pr) = trace w (main pr)
  /\ stdout (trace (with_custom_prompt custom w) (main pr)) = stdout (trace w (main pr))
  /\ requests (trace (with_custom_prompt custom w) (main pr)) = requests (trace w (main pr)).
Proof.
  assert (Ht : trace (with_custom_prompt custom w) (main pr) = trace w (main pr)).
  { destruct (loadConfig_with_custom_prompt custom w) as [Hlt Hlr].
    destruct (returned w loadConfig) as [[cfg lerr] |] eqn:Hc; [| contradiction].
    destruct Hlr as (cfg' & Hc' & Hkey).
    set (rest := fun key : string =>
                   if String.eqb match pr with Some v => v | None => EmptyString end ""
                   then call (Println [usage])
                   else pipeline match pr with Some v => v | None => EmptyString end key).
    assert (Hmain : forall w0 cfg0 lerr0,
               returned w0 loadConfig = Some (cfg0, lerr0) ->
               trace w0 (main pr)
               = trace w0 loadConfig
                 ++ trace w0 (rest (FileConfig.Key (FileConfig.ApiKey cfg0)))).
    { intros w0 cfg0 lerr0 H0. unfold main. rewrite trace_bind, H0. reflexivity. }
    rewrite (Hmain _ _ _ Hc'), (Hmain _ _ _ Hc), Hlt, Hkey.
    f_equal. unfold trace. f_equal. symmetry.
    apply (exec_agree _ (fun ev => negb (is_config_call ev))).
    - intros X e He. destruct e; try reflexivity; discriminate He.
    - destruct (main_rest_no_config_call w pr) as (r & Hr & Hno).
      rewrite (Hmain _ _ _ Hc) in Hr. apply app_inv_head in Hr.
      rewrite Hr. exact Hno. }
  rewrite Ht. repeat split.
Qed.

(** ** The body is JSON whatever the diff *)

Section AnyBytes.

Local Open Scope string_scope.

Lemma string_body_fffd (X : string) :
  Inspect.string_body (String backslash ("ufffd" ++ X))
  = Inspect.prepend Inspect.replacement (Inspect.string_body X).
Proof. reflexivity. Qed.

(** What [appendString] writes reads back as some string, for any bytes. *)
Lemma string_body_total_bounded (n : nat) :
  forall s,
    String.length s <= n ->
    exists x, forall rest,
      Inspect.string_body (json.appendString_from s O true ++ String dquote rest)
      = Some (x, rest).
Proof.
  induction n as [| n IH]; intros s Hlen.
  - destruct s; [exists ""; reflexivity | simpl in Hlen; lia].
  - destruct s as [| c0 t]; [exists ""; reflexivity |].
    cbn [String.length] in Hlen. cbn [json.appendString_from].
    destruct (byte_of c0 <? utf8.RuneSelf)%N eqn:Hascii.
    + destruct (IH t ltac:(lia)) as (x & Hx). exists (String c0 x). intros rest.
      rewrite string_app_assoc, (string_body_escape c0 _ Hascii), Hx. reflexivity.
    + destruct (utf8.DecodeRuneInString (substring 0 utf8.UTFMax (String c0 t)))
        as [r size] eqn:Hdec.
      destruct ((r =? utf8.RuneError)%N && (size =? 1)%nat) eqn:Hok.
      * destruct (IH t ltac:(lia)) as (x & Hx). exists (Inspect.replacement ++ x).
        intros rest. cbn [append].
        etransitivity; [apply string_body_fffd |]. rewrite Hx. reflexivity.
      * destruct (decode_shape c0 t r size Hascii Hdec Hok)
          as (cont & tail & -> & Hsize & Habove & _ & Hspecial).
        rewrite string_length_app in Hlen.
        destruct (IH tail ltac:(lia)) as (x & Hx).
        exists (String c0 cont ++ x). intros rest.
        rewrite <- Hsize.
        assert (Hlead : (utf8.RuneSelf <=? byte_of c0)%N = true).
        { apply N.leb_le. apply N.ltb_ge in Hascii. exact Hascii. }
        destruct ((r =? 0x2028)%N || (r =? 0x2029)%N) eqn:Hs.
        -- specialize (Hspecial eq_refl).
           rewrite appendString_from_pending, appendString_from_keep.
           rewrite <- Hspecial.
           apply orb_true_iff in Hs. rewrite !N.eqb_eq in Hs.
           destruct Hs as [-> | ->]; cbn [append].
           ++ change (json.hex (N.land 8232 15)) with "8"%char.
              etransitivity; [apply string_body_2028 |]. rewrite Hx. reflexivity.
           ++ change (json.hex (N.land 8233 15)) with "9"%char.
              etransitivity; [apply string_body_2029 |]. rewrite Hx. reflexivity.
        -- rewrite appendString_from_pending. cbn [append].
           rewrite string_app_assoc, (string_body_raw c0 _ Hlead),
             (string_body_above cont _ Habove), Hx.
           reflexivity.
Qed.

(** The document of a body whose content reads back as [content]. *)
Lemma document_of_body (D content : string) :
  (forall rest,
      Inspect.string_body
        (json.appendString_from (D ++ instruction) O true ++ String dquote rest)
      = Some (content, rest)) ->
  Inspect.document (json.encode_OpenAIRequest (buildRequest D))
  = Some (request_document content).
Proof.
  intros HX.
  rewrite body_shape. unfold Inspect.document. rewrite string_length_app.
  set (n := String.length (json.appendString_from (D ++ instruction) 0 true
                           ++ String dquote body_suffix)).
  change (S (String.length body_prefix + n))
    with (9 + (String.length body_prefix - 8 + n)).
  rewrite (parse_request_text _ _ _ HX). reflexivity.
Qed.


End AnyBytes.
